(** * Nested Minded Chat: the thread / message model of [app.py]

    A shallow embedding of the session-state bookkeeping of the Streamlit
    application: the [Message] and [Thread] dataclasses, the helpers
    [add_message] and [create_new_thread], the button handlers of
    [render_conversations_tab], [render_chat_interface] and
    [render_input_area], and the export of [render_settings_tab].

    Conventions.
    - A Python [str] is a list of Unicode code points ([list N]); [len] is
      [length], [s[:50]] is [take 50 s], [+] is [++].
    - [st.session_state] is the record [SessionState]; a dict is an
      insertion-ordered association list ([dict_get], [dict_set]).
    - The clock ([time.time()], [datetime.now()]) is an input of each call.
    - A raised exception (of Python or of Streamlit, such as the one for
      two buttons with one key) is the outcome [Raise]; [st.rerun()] ends the
      script run, so a handler that reaches it returns its state at once. *)

From Stdlib Require Import ZArith NArith List Lia.
From stdpp Require Import base decidable option numbers list strings pretty.

Set Warnings "-register-all".
Local Open Scope Z_scope.

(** ** Python strings *)

Abbreviation str := (list N).

(** A source literal, character by character. *)
Fixpoint lit (s : string) : str :=
  match s with
  | EmptyString => []
  | String a s' => Ascii.N_of_ascii a :: lit s'
  end.
Arguments lit : simpl never.

(** [for c in s] membership of a code point in a finite table. *)
Definition code_in (c : N) (table : list N) : bool :=
  existsb (N.eqb c) table.

(** [str.isspace] on one character: CPython's [_PyUnicode_IsWhitespace]. *)
Definition isspace (c : N) : bool :=
  ((0x09 <=? c) && (c <=? 0x0D))%N
  || ((0x1C <=? c) && (c <=? 0x20))%N
  || code_in c [0x85; 0xA0; 0x1680]%N
  || ((0x2000 <=? c) && (c <=? 0x200A))%N
  || code_in c [0x2028; 0x2029; 0x202F; 0x205F; 0x3000]%N.

Fixpoint lstrip (s : str) : str :=
  match s with
  | c :: s' => if isspace c then lstrip s' else s
  | [] => []
  end.

Definition rstrip (s : str) : str := rev (lstrip (rev s)).

(** [s.strip()] *)
Definition strip (s : str) : str := rstrip (lstrip s).

(** Truth value of a [str]: non-empty. *)
Definition truthy (s : str) : bool :=
  match s with [] => false | _ :: _ => true end.

(** [s.startswith(p)] *)
Fixpoint startswith (s p : str) : bool :=
  match p, s with
  | [], _ => true
  | a :: p', b :: s' => (N.eqb a b) && startswith s' p'
  | _ :: _, [] => false
  end.

(** [sep.join(parts)] *)
Fixpoint join (sep : str) (parts : list str) : str :=
  match parts with
  | [] => []
  | [p] => p
  | p :: rest => p ++ sep ++ join sep rest
  end.

(** [str(n)] / [f"{n}"] for an [int]. *)
Definition str_of_int (n : Z) : str := lit (pretty n).

(** ** Insertion-ordered dictionaries with [str] keys *)

Section dict.
Context {V : Type}.

(** [d.get(k)] ([None] when absent) *)
Fixpoint dict_get (k : str) (d : list (str * V)) : option V :=
  match d with
  | [] => None
  | (k', v) :: d' => if decide (k' = k) then Some v else dict_get k d'
  end.

(** [k in d] *)
Definition dict_contains (k : str) (d : list (str * V)) : bool :=
  match dict_get k d with Some _ => true | None => false end.

(** [d[k] = v]: an existing key keeps its position, a new key goes last. *)
Fixpoint dict_set (k : str) (v : V) (d : list (str * V)) : list (str * V) :=
  match d with
  | [] => [(k, v)]
  | (k', v') :: d' =>
      if decide (k' = k) then (k, v) :: d' else (k', v') :: dict_set k v d'
  end.

Definition dict_keys (d : list (str * V)) : list str := map fst d.
End dict.

(** ** Data model *)

(** A naive [datetime] (no tzinfo), as [datetime.now()] returns it. *)
Record datetime := mk_datetime {
  year : N; month : N; day : N;
  hour : N; minute : N; second : N; microsecond : N
}.

(** The [file_details] dict of [process_uploaded_file]: keys
    ["name"], ["size"], ["type"], ["content"]. *)
Record FileDetails := mk_file_details {
  fd_name : str;
  fd_size : Z;
  fd_type : str;
  fd_content : option str
}.

Module Message.
Record t := mk {
  id : str;
  content : str;
  role : str;
  timestamp : datetime;
  parent_id : option str;
  thread_id : str;
  attachments : list FileDetails
}.
End Message.

Module Thread.
Record t := mk {
  id : str;
  name : str;
  messages : list Message.t;
  parent_thread_id : option str;
  created_at : datetime
}.

(** [thread.messages.append(m)] *)
Definition append (m : Message.t) (th : t) : t :=
  mk (id th) (name th) (messages th ++ [m]) (parent_thread_id th)
   (created_at th).

(** [thread.messages.clear()] *)
Definition clear (th : t) : t :=
  mk (id th) (name th) [] (parent_thread_id th) (created_at th).
End Thread.

(** [st.session_state]. The attribute [link_parent] exists or not
    ([hasattr] / [delattr]), hence the option. The attributes [messages]
    and [theme] are not read by any modelled handler and are left out. *)
Record SessionState := mk_state {
  threads : list (str * Thread.t);
  current_thread : str;
  uploaded_files : list FileDetails;
  link_parent : option str
}.

Definition set_threads (d : list (str * Thread.t)) (s : SessionState) :=
  mk_state d (current_thread s) (uploaded_files s) (link_parent s).
Definition set_current_thread (c : str) (s : SessionState) :=
  mk_state (threads s) c (uploaded_files s) (link_parent s).
Definition set_uploaded_files (u : list FileDetails) (s : SessionState) :=
  mk_state (threads s) (current_thread s) u (link_parent s).
Definition set_link_parent (l : option str) (s : SessionState) :=
  mk_state (threads s) (current_thread s) (uploaded_files s) l.

(** The clock readings of one call of [add_message] or [create_new_thread]. *)
Record Clock := mk_clock {
  time_ms : Z;              (* int(time.time() * 1000) *)
  now : datetime;           (* datetime.now() in the call *)
  now_post_init : datetime  (* datetime.now() in Thread.__post_init__ *)
}.

(** [initialize_session_state] on a fresh session. *)
Definition initialize_session_state (created : datetime) : SessionState :=
  mk_state
    [(lit "main",
      Thread.mk (lit "main") (lit "Main Conversation") [] None created)]
    (lit "main") [] None.

(** ** Message utilities *)

(** [f"Thread {len(st.session_state.threads) + 1}"] *)
Definition default_thread_name (s : SessionState) : str :=
  lit "Thread " ++ str_of_int (Z.of_nat (length (threads s)) + 1).

(** The message object that [add_message] constructs. *)
Definition new_message (clk : Clock) (content role : str) (thread_id : str)
    (attachments : list FileDetails) (parent_id : option str) : Message.t :=
  Message.mk (lit "msg_" ++ str_of_int (time_ms clk)) content role (now clk)
             parent_id thread_id attachments.

Definition add_message (clk : Clock) (content role : str)
    (thread_id : option str) (attachments : list FileDetails)
    (parent_id : option str) (s : SessionState) : SessionState :=
  let thread_id :=
    match thread_id with None => current_thread s | Some t => t end in
  let message :=
    new_message clk content role thread_id attachments parent_id in
  match dict_get thread_id (threads s) with
  | Some th =>
      set_threads (dict_set thread_id (Thread.append message th) (threads s)) s
  | None =>
      let new_thread :=
        Thread.mk thread_id (default_thread_name s) [message] None
                  (now_post_init clk) in
      set_threads (dict_set thread_id new_thread (threads s)) s
  end.

Definition create_new_thread (clk : Clock) (parent_message_id : option str)
    (s : SessionState) : str * SessionState :=
  let thread_id := lit "thread_" ++ str_of_int (time_ms clk) in
  let thread_name := default_thread_name s in
  let parent :=
    match parent_message_id with
    | Some p => if truthy p then Some (current_thread s) else None
    | None => None
    end in
  let new_thread :=
    Thread.mk thread_id thread_name [] parent (now_post_init clk) in
  (thread_id, set_threads (dict_set thread_id new_thread (threads s)) s).

(** The sequence of ids returned by successive [create_new_thread] calls,
    each with its own clock readings and argument. *)
Fixpoint create_many (calls : list (Clock * option str)) (s : SessionState)
    : list str :=
  match calls with
  | [] => []
  | (clk, p) :: rest =>
      let '(tid, s') := create_new_thread clk p s in
      tid :: create_many rest s'
  end.

(** ** Outcomes *)

Inductive exn :=
  | KeyError (k : str)
  | UnicodeDecodeError
  | StreamlitDuplicateElementKey (key : str).

(** Result of a helper that may raise. *)
Inductive result (A : Type) :=
  | Ok (a : A)
  | Err (e : exn).
Arguments Ok {A} a.
Arguments Err {A} e.

(** Outcome of a script run: it ends normally (possibly through
    [st.rerun()]) or in an exception; either way the session state it
    leaves behind persists. *)
Inductive outcome :=
  | Done (s : SessionState)
  | Raise (e : exn) (s : SessionState).

Definition final_state (o : outcome) : SessionState :=
  match o with Done s => s | Raise _ s => s end.

(** A run fails when it ends in an exception. *)
Definition fails (o : outcome) : Prop := exists e s, o = Raise e s.

(** What a sidebar tab does to the run: a button fired and the script
    reran with a new state, the tab raised, or nothing happened. *)
Inductive tab_result :=
  | Fired (s : SessionState)
  | Crashed (e : exn)
  | Idle.

(** ** Sidebar tabs *)

(** The buttons of [render_conversations_tab]: one per thread of the
    store, in dict order; [pressed] is the thread whose button was
    pressed. *)
Fixpoint render_conversations_tab (pressed : str)
    (items : list (str * Thread.t)) (s : SessionState) : tab_result :=
  match items with
  | [] => Idle
  | (thread_id, _) :: rest =>
      if decide (pressed = thread_id)
      then Fired (set_current_thread thread_id s)
      else render_conversations_tab pressed rest s
  end.

(** The loop "find child threads" of [render_thread_tree]: every thread
    of the store whose parent is [thread_id] is visited, in dict order,
    until a visit ends the run. *)
Fixpoint tree_children (visit : str -> option tab_result) (thread_id : str)
    (items : list (str * Thread.t)) : option tab_result :=
  match items with
  | [] => Some Idle
  | (tid, t) :: rest =>
      if decide (Thread.parent_thread_id t = Some thread_id) then
        match visit tid with
        | Some Idle => tree_children visit thread_id rest
        | r => r
        end
      else tree_children visit thread_id rest
  end.

(** [render_thread_tree] of [render_threads_tab]. The button of a node has
    key [tree_{thread_id}_{level}]; [pressed] is the (thread, level) whose
    button was pressed. The recursion follows [parent_thread_id] links and
    is bounded by [fuel]: [None] is fuel exhaustion. *)
Fixpoint render_thread_tree (fuel : nat) (pressed : str * nat)
    (thread_id : str) (level : nat) (s : SessionState) : option tab_result :=
  match fuel with
  | O => None
  | S fuel' =>
      match dict_get thread_id (threads s) with
      | None => Some (Crashed (KeyError thread_id))
      | Some _ =>
          if decide (pressed = (thread_id, level))
          then Some (Fired (set_current_thread thread_id s))
          else
            tree_children
              (fun tid => render_thread_tree fuel' pressed tid (S level) s)
              thread_id (threads s)
      end
  end.

(** The loop over root threads of [render_threads_tab]. *)
Fixpoint render_threads_tab (fuel : nat) (pressed : str * nat)
    (items : list (str * Thread.t)) (s : SessionState) : option tab_result :=
  match items with
  | [] => Some Idle
  | (thread_id, thread) :: rest =>
      match Thread.parent_thread_id thread with
      | None =>
          match render_thread_tree fuel pressed thread_id 0 s with
          | Some Idle => render_threads_tab fuel pressed rest s
          | r => r
          end
      | Some _ => render_threads_tab fuel pressed rest s
      end
  end.

(** The threads listed at the top level of the hierarchy: those without a
    parent, in dict order. *)
Definition root_threads (s : SessionState) : list (str * Thread.t) :=
  filter (fun it => Thread.parent_thread_id it.2 = None) (threads s).

(** The "Remove" buttons of [render_files_tab]: [uploaded_files.pop(i)]
    for a listed index [i]. *)
Definition render_files_tab (pressed : nat) (s : SessionState) : tab_result :=
  if decide (pressed < length (uploaded_files s))%nat
  then Fired (set_uploaded_files (delete pressed (uploaded_files s)) s)
  else Idle.

(** ** Export (the "Export Chat Data" button of [render_settings_tab]) *)

(** Python values built by [dataclasses.asdict]. *)
Inductive pyval :=
  | PNone
  | PStr (s : str)
  | PInt (n : Z)
  | PDatetime (d : datetime)
  | PList (l : list pyval)
  | PDict (items : list (str * pyval)).

(** The tree that [json.dumps] writes. *)
Inductive json :=
  | JNull
  | JString (s : str)
  | JNumber (n : Z)
  | JArray (l : list json)
  | JObject (items : list (str * json)).

Definition digit (n : N) : N := (48 + n mod 10)%N.

(** [%0wd] for a value below [10^w]. *)
Fixpoint zero_padded (width : nat) (n : N) : str :=
  match width with
  | O => []
  | S w => zero_padded w (n / 10)%N ++ [digit n]
  end.

(** [datetime.isoformat(sep)] of a naive datetime: the fields of a
    [datetime] lie in the ranges of the class (year 1..9999, ...,
    microsecond 0..999999), so every field has its fixed width. *)
Definition isoformat (sep : N) (d : datetime) : str :=
  zero_padded 4 (year d) ++ [45]%N ++ zero_padded 2 (month d) ++ [45]%N
  ++ zero_padded 2 (day d) ++ [sep]
  ++ zero_padded 2 (hour d) ++ [58]%N ++ zero_padded 2 (minute d) ++ [58]%N
  ++ zero_padded 2 (second d)
  ++ (if (microsecond d =? 0)%N then []
      else [46]%N ++ zero_padded 6 (microsecond d)).

(** [str(d)] is [d.isoformat(sep=' ')]. *)
Definition datetime_str (d : datetime) : str := isoformat 32 d.

Definition pyopt (o : option str) : pyval :=
  match o with None => PNone | Some s => PStr s end.

(** [asdict] copies the attachment dicts key by key. *)
Definition asdict_file (f : FileDetails) : pyval :=
  PDict [(lit "name", PStr (fd_name f)); (lit "size", PInt (fd_size f));
         (lit "type", PStr (fd_type f)); (lit "content", pyopt (fd_content f))].

Definition asdict_message (m : Message.t) : pyval :=
  PDict [(lit "id", PStr (Message.id m));
         (lit "content", PStr (Message.content m));
         (lit "role", PStr (Message.role m));
         (lit "timestamp", PDatetime (Message.timestamp m));
         (lit "parent_id", pyopt (Message.parent_id m));
         (lit "thread_id", PStr (Message.thread_id m));
         (lit "attachments", PList (map asdict_file (Message.attachments m)))].

Definition asdict_thread (th : Thread.t) : pyval :=
  PDict [(lit "id", PStr (Thread.id th));
         (lit "name", PStr (Thread.name th));
         (lit "messages", PList (map asdict_message (Thread.messages th)));
         (lit "parent_thread_id", pyopt (Thread.parent_thread_id th));
         (lit "created_at", PDatetime (Thread.created_at th))].

Definition export_data (s : SessionState) : pyval :=
  PDict [(lit "threads",
          PDict (map (fun it => (it.1, asdict_thread it.2)) (threads s)));
         (lit "current_thread", PStr (current_thread s))].

(** [json.dumps(v, default=str)] as a tree: a value the encoder does not
    know (here a [datetime]) is replaced by [str] of it. *)
Fixpoint json_dumps (v : pyval) : json :=
  match v with
  | PNone => JNull
  | PStr s => JString s
  | PInt n => JNumber n
  | PDatetime d => JString (datetime_str d)
  | PList l => JArray (map json_dumps l)
  | PDict items => JObject (map (fun kv => (kv.1, json_dumps kv.2)) items)
  end.

(** The export button: the session state after the handler and the data
    handed to [st.download_button] (when the button was pressed). *)
Definition render_settings_tab (export_pressed : bool) (s : SessionState)
    : SessionState * option json :=
  if export_pressed then (s, Some (json_dumps (export_data s))) else (s, None).

(** Field access in an exported object. *)
Definition jfield (k : str) (j : json) : option json :=
  match j with JObject items => dict_get k items | _ => None end.

(** Shape of [YYYY-MM-DD?HH:MM:SS] with an optional [.ffffff], the
    date/time separator being a space or [T]. *)
Definition is_digit (c : N) : bool := ((48 <=? c) && (c <=? 57))%N.

Definition iso8601_shape (s : str) : bool :=
  match s with
  | y1 :: y2 :: y3 :: y4 :: d1 :: m1 :: m2 :: d2 :: a1 :: a2 :: sep
    :: h1 :: h2 :: c1 :: n1 :: n2 :: c2 :: s1 :: s2 :: frac =>
      forallb is_digit [y1; y2; y3; y4; m1; m2; a1; a2; h1; h2; n1; n2; s1; s2]
      && (d1 =? 45)%N && (d2 =? 45)%N && (c1 =? 58)%N && (c2 =? 58)%N
      && ((sep =? 32)%N || (sep =? 84)%N)
      && match frac with
         | [] => true
         | dot :: f =>
             (dot =? 46)%N && (length f =? 6)%nat && forallb is_digit f
         end
  | _ => false
  end.


(** The tab selected in the sidebar together with the button pressed in
    it, if any. *)
Inductive Sidebar :=
  | Home
  | Conversations (pressed : option str)
  | NestedThreads (fuel : nat) (pressed : option (str * nat))
  | Files (pressed : option nat)
  | Settings (toggle_theme export_pressed : bool).

(** [render_sidebar]; [None] when the tree walk ran out of fuel. *)
Definition render_sidebar (sb : Sidebar) (s : SessionState)
    : option tab_result :=
  match sb with
  | Home => Some Idle
  | Conversations None => Some Idle
  | Conversations (Some p) => Some (render_conversations_tab p (threads s) s)
  | NestedThreads _ None => Some Idle
  | NestedThreads fuel (Some p) => render_threads_tab fuel p (threads s) s
  | Files None => Some Idle
  | Files (Some i) => Some (render_files_tab i s)
  | Settings toggle _ =>
      (* the export button leaves the state alone: [render_settings_tab] *)
      if toggle then Some (Fired s) else Some Idle
  end.

(** ** Widgets and clock readings of the chat area *)

(** The object returned by [st.file_uploader]; [uf_value] is [getvalue()]. *)
Record UploadedFile := mk_uploaded_file {
  uf_name : str;
  uf_size : Z;
  uf_type : str;
  uf_value : list N
}.

(** Widget values read by [render_input_area]. [link_button] is the value
    of the "Link to Parent" button, which exists only while [link_parent]
    is set. *)
Record InputArea := mk_input_area {
  uploaded_file : option UploadedFile;
  message_input : str;
  send_clicked : bool;
  new_thread_clicked : bool;
  link_button : bool;
  clear_clicked : bool
}.

(** Widget values read by [render_chat_interface]: the header button, the
    message whose link button was pressed (if any), and the input area. *)
Record ChatWidgets := mk_chat_widgets {
  header_new_thread : bool;
  link_pressed : option str;
  input_area : InputArea
}.

(** Clock readings of a run: for the user message, for the assistant
    message and for a thread creation. *)
Record Clocks := mk_clocks {
  clk_user : Clock;
  clk_assistant : Clock;
  clk_thread : Clock
}.

(** One script run: what the user did and what the clock showed. *)
Record Run := mk_run {
  sidebar : Sidebar;
  chat : ChatWidgets;
  clocks : Clocks
}.

(** ** The simulated assistant response (lines 533-536) *)

Definition assistant_response (message_input : str)
    (attachments : list FileDetails) : str :=
  let assistant_response :=
    if (50 <? length message_input)%nat
    then lit "Thank you for your message! I received: '"
         ++ take 50 message_input ++ lit "...'"
    else lit "Thank you for your message: '" ++ message_input ++ lit "'" in
  match attachments with
  | [] => assistant_response
  | _ :: _ =>
      assistant_response
      ++ [10; 10]%N ++ lit "I also received "
      ++ str_of_int (Z.of_nat (length attachments))
      ++ lit " file(s): "
      ++ join (lit ", ") (map fd_name attachments)
  end.

(** ** The chat area *)

Section handlers.
(** [bytes.decode('utf-8')]; [None] stands for [UnicodeDecodeError]. *)
Variable utf8_decode : list N -> option str.
(** [base64.b64encode(b).decode()] *)
Variable b64encode : list N -> str.

Definition process_uploaded_file (f : UploadedFile) : result FileDetails :=
  if startswith (uf_type f) (lit "text/") then
    match utf8_decode (uf_value f) with
    | Some c => Ok (mk_file_details (uf_name f) (uf_size f) (uf_type f) (Some c))
    | None => Err UnicodeDecodeError
    end
  else if startswith (uf_type f) (lit "image/") then
    Ok (mk_file_details (uf_name f) (uf_size f) (uf_type f)
                        (Some (b64encode (uf_value f))))
  else
    Ok (mk_file_details (uf_name f) (uf_size f) (uf_type f) None).

(** The [if uploaded_file:] block of the send handler: the attachment
    list and the state with [uploaded_files] extended. *)
Definition attach (uploaded : option UploadedFile) (s : SessionState)
    : result (list FileDetails * SessionState) :=
  match uploaded with
  | None => Ok ([], s)
  | Some f =>
      match process_uploaded_file f with
      | Err e => Err e
      | Ok file_details =>
          Ok ([file_details],
              set_uploaded_files (uploaded_files s ++ [file_details]) s)
      end
  end.

(** The handlers of [render_input_area], in source order. *)
Definition render_input_area (w : InputArea) (ck : Clocks)
    (s : SessionState) : outcome :=
  if send_clicked w && truthy (strip (message_input w)) then
    match attach (uploaded_file w) s with
    | Err e => Raise e s
    | Ok (attachments, s1) =>
        let parent_id := link_parent s1 in
        let s2 := add_message (clk_user ck) (message_input w) (lit "user")
                              None attachments parent_id s1 in
        let s3 := add_message (clk_assistant ck)
                              (assistant_response (message_input w) attachments)
                              (lit "assistant") None [] None s2 in
        Done (set_link_parent None s3)
    end
  else if new_thread_clicked w then
    let '(new_thread_id, s1) := create_new_thread (clk_thread ck) None s in
    Done (set_current_thread new_thread_id s1)
  else
    (* [if link_clicked and hasattr(...)]: [st.success] only, no state change *)
    if clear_clicked w then
      match dict_get (current_thread s) (threads s) with
      | None => Raise (KeyError (current_thread s)) s
      | Some th =>
          Done (set_link_parent None
                  (set_threads
                     (dict_set (current_thread s) (Thread.clear th) (threads s)) s))
      end
    else Done s.

(** The link buttons of the message loop, one per message with key
    [link_{message.id}]. [st.button] raises when its key was already used
    in the run, which here means that an earlier message of the thread
    has the same id ([seen] holds the ids met so far; no other widget of the
    page has a key that starts with [link_]). Otherwise, pressing the
    button of a message stores its id in [link_parent] and the run goes
    on. *)
Fixpoint link_buttons (pressed : option str) (seen : list str)
    (msgs : list Message.t) (s : SessionState) : outcome :=
  match msgs with
  | [] => Done s
  | m :: rest =>
      if bool_decide (Message.id m ∈ seen) then
        Raise (StreamlitDuplicateElementKey (lit "link_" ++ Message.id m)) s
      else
        let s' :=
          if decide (pressed = Some (Message.id m))
          then set_link_parent (Some (Message.id m)) s else s in
        link_buttons pressed (Message.id m :: seen) rest s'
  end.

Definition render_chat_interface (w : ChatWidgets) (ck : Clocks)
    (s : SessionState) : outcome :=
  match dict_get (current_thread s) (threads s) with
  | None => Done s                   (* "Current thread not found!" *)
  | Some current =>
      if header_new_thread w then
        let '(new_thread_id, s1) := create_new_thread (clk_thread ck) None s in
        Done (set_current_thread new_thread_id s1)
      else
        match link_buttons (link_pressed w) [] (Thread.messages current) s with
        | Raise e s1 => Raise e s1
        | Done s1 => render_input_area (input_area w) ck s1
        end
  end.

(** [main] after the first run ([initialize_session_state] finds every
    attribute set): the sidebar, then the chat area unless the sidebar
    ended the run. [None]: the tree walk ran out of fuel. *)
Definition main (r : Run) (s : SessionState) : option outcome :=
  match render_sidebar (sidebar r) s with
  | None => None
  | Some (Fired s') => Some (Done s')
  | Some (Crashed e) => Some (Raise e s)
  | Some Idle => Some (render_chat_interface (chat r) (clocks r) s)
  end.

(** States a session can be in: the initial one and every state a run
    leaves behind, whether it ended normally or in an exception. *)
Inductive reachable : SessionState -> Prop :=
  | reachable_init (created : datetime) :
      reachable (initialize_session_state created)
  | reachable_run (r : Run) (s : SessionState) (o : outcome) :
      reachable s -> main r s = Some o -> reachable (final_state o).
End handlers.

(** ** Definitions used in the statements *)

(** The message sequence of a thread of the store (empty for an id that
    is not in the store). *)
Definition messages_of (tid : str) (s : SessionState) : list Message.t :=
  match dict_get tid (threads s) with
  | Some th => Thread.messages th
  | None => []
  end.

(** The reply of the echo policy, in the words of the specification. *)
Definition echo_reply (text : str) : str :=
  if decide (length text <= 50)%nat
  then lit "Thank you for your message: '" ++ text ++ lit "'"
  else lit "Thank you for your message! I received: '"
       ++ take 50 text ++ lit "...'".

(** The line appended to the reply when attachments are present. *)
Definition attachment_suffix (atts : list FileDetails) : str :=
  match atts with
  | [] => []
  | _ :: _ =>
      [10; 10]%N ++ lit "I also received "
      ++ str_of_int (Z.of_nat (length atts)) ++ lit " file(s): "
      ++ join (lit ", ") (map fd_name atts)
  end.

(** A chat area in which nothing was pressed or typed. *)
Definition idle_chat : ChatWidgets :=
  mk_chat_widgets false None (mk_input_area None [] false false false false).

(** The invariant of the session: the current thread and the thread
    ["main"] are in the store, and no thread of the store has a parent
    (the interface creates threads without one). *)
Definition session_inv (s : SessionState) : Prop :=
  dict_contains (current_thread s) (threads s) = true
  /\ dict_contains (lit "main") (threads s) = true
  /\ Forall (fun it => Thread.parent_thread_id it.2 = None) (threads s).

(** The field ranges of Python's [datetime] class. *)
Definition valid_datetime (d : datetime) : Prop :=
  (1 <= year d <= 9999 /\ 1 <= month d <= 12 /\ 1 <= day d <= 31
   /\ hour d < 24 /\ minute d < 60 /\ second d < 60
   /\ microsecond d < 1000000)%N.

(** ** Further functions of [app.py] *)

(** [toggle_theme], on the value of [st.session_state.theme]. *)
Definition toggle_theme (theme : str) : str :=
  if decide (theme = lit "light") then lit "dark" else lit "light".

(** The two metrics of [render_home_tab]: "Total Messages" and
    "Active Threads". *)
Definition total_messages (s : SessionState) : nat :=
  sum_list_with (fun it => length (Thread.messages it.2)) (threads s).

Definition render_home_tab (s : SessionState) : nat * nat :=
  (total_messages s, length (threads s)).

(** What [display_file_preview] puts inside the expander. *)
Inductive preview :=
  | Code (text : str)       (* st.code *)
  | Image (uri : str)       (* st.image *)
  | Info (text : str).      (* st.info *)

(** [f"{x}"] for an optional string: [None] prints as ["None"]. *)
Definition format_opt (o : option str) : str :=
  match o with Some c => c | None => lit "None" end.

(** [display_file_preview]: the label of the expander and its body. The
    label starts with the paperclip character U+1F4CE. *)
Definition display_file_preview (file_details : FileDetails) : str * preview :=
  let label :=
    [128206; 32]%N ++ fd_name file_details ++ lit " ("
    ++ str_of_int (fd_size file_details) ++ lit " bytes)" in
  let body :=
    match fd_content file_details with
    | Some c =>
        if startswith (fd_type file_details) (lit "text/") && truthy c then
          Code (if (500 <? length c)%nat then take 500 c ++ lit "..." else c)
        else if startswith (fd_type file_details) (lit "image/") then
          Image (lit "data:" ++ fd_type file_details ++ lit ";base64," ++ c)
        else Info (lit "File type: " ++ fd_type file_details)
    | None =>
        if startswith (fd_type file_details) (lit "image/") then
          Image (lit "data:" ++ fd_type file_details ++ lit ";base64,"
                 ++ format_opt None)
        else Info (lit "File type: " ++ fd_type file_details)
    end in
  (label, body).

(** [st.session_state] as [initialize_session_state] sees it: each of the
    five attributes it tests is set or not. *)
Record Attrs := mk_attrs {
  a_messages : option (list Message.t);
  a_threads : option (list (str * Thread.t));
  a_current_thread : option str;
  a_theme : option str;
  a_uploaded_files : option (list FileDetails)
}.

(** [initialize_session_state] at the start of any run; [created] is the
    clock reading used if the thread ["main"] has to be built. *)
Definition initialize_attrs (created : datetime) (a : Attrs) : Attrs :=
  mk_attrs
    (match a_messages a with None => Some [] | x => x end)
    (match a_threads a with
     | None =>
         Some [(lit "main",
                Thread.mk (lit "main") (lit "Main Conversation") [] None created)]
     | x => x
     end)
    (match a_current_thread a with None => Some (lit "main") | x => x end)
    (match a_theme a with None => Some (lit "light") | x => x end)
    (match a_uploaded_files a with None => Some [] | x => x end).

(** ** Well-formed stores *)

(** The role a thread's message has at position [i]: the user speaks at
    even positions, the assistant at odd ones. *)
Definition role_at (i : nat) : str :=
  if Nat.even i then lit "user" else lit "assistant".

(** A message sequence made of user/assistant exchanges. *)
Definition exchanges (msgs : list Message.t) : Prop :=
  Nat.even (length msgs) = true
  /\ forall i m, msgs !! i = Some m ->
       Message.role m = role_at i
       /\ (Nat.even i = false ->
           Message.parent_id m = None /\ Message.attachments m = []).

(** A thread record stored under the key [k]. *)
Definition thread_ok (k : str) (th : Thread.t) : Prop :=
  Thread.id th = k
  /\ Forall (fun m => Message.thread_id m = k) (Thread.messages th)
  /\ exchanges (Thread.messages th).

Definition store_wf (d : list (str * Thread.t)) : Prop :=
  NoDup (dict_keys d) /\ Forall (fun it => thread_ok it.1 it.2) d.

(** Every timestamp of the store lies in the ranges of [datetime]. *)
Definition valid_thread (th : Thread.t) : Prop :=
  valid_datetime (Thread.created_at th)
  /\ Forall (fun m => valid_datetime (Message.timestamp m)) (Thread.messages th).

Definition valid_store (s : SessionState) : Prop :=
  Forall (fun it => valid_thread it.2) (threads s).

(** ** Sample inputs for the closed examples *)

Definition sample_time : datetime := mk_datetime 2024 5 17 9 30 0 0.
Definition sample_clock : Clock :=
  mk_clock 1715938200000 sample_time sample_time.
Definition later_clock : Clock :=
  mk_clock 1715938200001 sample_time sample_time.
Definition sample_clocks : Clocks :=
  mk_clocks sample_clock sample_clock sample_clock.

(** Stand-ins for the two codecs; no example uploads a file. *)
Definition example_decode (bytes : list N) : option str :=
  if forallb (fun b => b <? 128)%N bytes then Some bytes else None.
Definition example_b64encode (bytes : list N) : str := [].

Definition fresh_session : SessionState := initialize_session_state sample_time.

(** A session with one message in ["main"] and a pending link target. *)
Definition chatty_session : SessionState :=
  mk_state
    [(lit "main",
      Thread.mk (lit "main") (lit "Main Conversation")
        [new_message sample_clock (lit "Hello") (lit "user") (lit "main") [] None]
        None sample_time)]
    (lit "main") [] (Some (lit "msg_1715938200000")).

(** The input area with a text typed and one button pressed. *)
Definition send_of (text : str) : InputArea :=
  mk_input_area None text true false false false.
Definition clear_press : InputArea :=
  mk_input_area None [] false false false true.

(** A text file whose bytes the stand-in decoder rejects, and one it
    accepts. *)
Definition broken_text_file : UploadedFile :=
  mk_uploaded_file (lit "notes.txt") 1 (lit "text/plain") [200%N].
Definition good_text_file : UploadedFile :=
  mk_uploaded_file (lit "notes.txt") 2 (lit "text/plain") [104; 105]%N.

(** A send with an uploaded file. *)
Definition send_with (f : UploadedFile) (text : str) : InputArea :=
  mk_input_area (Some f) text true false false false.

(** The session after "Hello" was sent in a fresh one, and the thread
    ["main"] it holds. *)
Definition after_hello : SessionState :=
  final_state
    (render_chat_interface example_decode example_b64encode
       (mk_chat_widgets false None (send_of (lit "Hello"))) sample_clocks
       fresh_session).

Definition hello_thread : Thread.t :=
  Thread.mk (lit "main") (lit "Main Conversation")
    [new_message sample_clock (lit "Hello") (lit "user") (lit "main") [] None;
     new_message sample_clock (lit "Thank you for your message: 'Hello'")
                 (lit "assistant") (lit "main") [] None]
    None sample_time.

(** The record [process_uploaded_file] builds for [good_text_file], and
    a session that lists it. *)
Definition good_file_details : FileDetails :=
  mk_file_details (lit "notes.txt") 2 (lit "text/plain") (Some [104; 105]%N).

Definition session_with_file : SessionState :=
  mk_state (threads fresh_session) (lit "main") [good_file_details] None.

(** * Properties *)

(** ** Strings and dictionaries *)

Lemma lit_inj (a b : string) : lit a = lit b -> a = b.
Proof.
  revert b; induction a as [|x a IH]; intros [|y b] H;
    cbv [lit] in H; fold lit in H; try discriminate H; [done|].
  injection H as Hxy Hab.
  f_equal; [|by apply IH].
  rewrite <- (Ascii.ascii_N_embedding x), <- (Ascii.ascii_N_embedding y).
  by rewrite Hxy.
Qed.

Lemma str_of_int_inj (m n : Z) : str_of_int m = str_of_int n -> m = n.
Proof.
  unfold str_of_int; intros H. apply lit_inj in H. by apply (inj pretty) in H.
Qed.

Lemma thread_id_inj (m n : Z) :
  lit "thread_" ++ str_of_int m = lit "thread_" ++ str_of_int n -> m = n.
Proof. intros H. apply app_inv_head in H. by apply str_of_int_inj. Qed.

Section dict_facts.
Context {V : Type}.
Implicit Types (d : list (str * V)) (k : str) (v : V).

Lemma dict_get_set_eq k v d : dict_get k (dict_set k v d) = Some v.
Proof.
  induction d as [|[k' v'] d IH]; simpl.
  - by rewrite decide_True.
  - destruct (decide (k' = k)) as [->|Hne]; simpl.
    + by rewrite decide_True.
    + by rewrite decide_False.
Qed.

Lemma dict_get_set_ne k k' v d :
  k <> k' -> dict_get k' (dict_set k v d) = dict_get k' d.
Proof.
  intros Hne. induction d as [|[k0 v0] d IH]; simpl.
  - by rewrite decide_False.
  - destruct (decide (k0 = k)) as [->|Hk]; simpl.
    + by rewrite !decide_False.
    + destruct (decide (k0 = k')); [done|apply IH].
Qed.

Lemma dict_get_Some_In k v d : dict_get k d = Some v -> In (k, v) d.
Proof.
  induction d as [|[k0 v0] d IH]; simpl; [done|].
  destruct (decide (k0 = k)) as [->|Hk].
  - intros [= ->]. by left.
  - intros H. right. by apply IH.
Qed.

Lemma dict_get_None_keys k d : dict_get k d = None <-> ~ In k (dict_keys d).
Proof.
  induction d as [|[k0 v0] d IH]; simpl; [tauto|].
  destruct (decide (k0 = k)) as [->|Hk].
  - split; [done|]. intros H. exfalso. apply H. by left.
  - rewrite IH. tauto.
Qed.

Lemma dict_set_absent k v d :
  dict_get k d = None -> dict_set k v d = d ++ [(k, v)].
Proof.
  induction d as [|[k0 v0] d IH]; simpl; [done|].
  destruct (decide (k0 = k)); [done|].
  intros H. by rewrite IH.
Qed.

Lemma dict_set_present_keys k v v0 d :
  dict_get k d = Some v0 -> dict_keys (dict_set k v d) = dict_keys d.
Proof.
  induction d as [|[k1 v1] d IH]; simpl; [done|].
  destruct (decide (k1 = k)) as [->|Hk]; simpl; [done|].
  intros H. by rewrite IH.
Qed.

Lemma dict_contains_set k k' v d :
  dict_contains k' d = true -> dict_contains k' (dict_set k v d) = true.
Proof.
  unfold dict_contains. destruct (decide (k = k')) as [->|Hne].
  - by rewrite dict_get_set_eq.
  - by rewrite dict_get_set_ne.
Qed.

Lemma dict_contains_set_eq k v d : dict_contains k (dict_set k v d) = true.
Proof. unfold dict_contains. by rewrite dict_get_set_eq. Qed.
End dict_facts.

(** ** Thread creation *)

Lemma create_many_ids (calls : list (Clock * option str)) (s : SessionState) :
  create_many calls s
  = map (fun c => lit "thread_" ++ str_of_int (time_ms c.1)) calls.
Proof.
  revert s; induction calls as [|[clk p] calls IH]; intros s; simpl; [done|].
  by rewrite IH.
Qed.

(** C1 (as amended): in a sequence of [create_new_thread] calls whose
    millisecond clock readings are pairwise distinct, the returned thread
    ids are pairwise distinct. *)
Theorem create_new_thread_ids_unique
    (calls : list (Clock * option str)) (s : SessionState) :
  NoDup (map (fun c => time_ms c.1) calls) ->
  NoDup (create_many calls s).
Proof.
  rewrite create_many_ids.
  induction calls as [|c calls IH]; simpl; intros Hnd.
  - constructor.
  - apply NoDup_cons in Hnd as [Hnotin Hnd].
    apply NoDup_cons; split; [|by apply IH].
    intros Hin. apply Hnotin.
    apply list_elem_of_fmap in Hin as (c' & Heq & Hc').
    apply thread_id_inj in Heq. rewrite Heq.
    apply list_elem_of_fmap. by exists c'.
Qed.

(** ** Appending a message *)

Lemma add_message_unfold clk content role thread_id atts parent s :
  let tid := default (current_thread s) thread_id in
  let m := new_message clk content role tid atts parent in
  add_message clk content role thread_id atts parent s
  = set_threads
      (dict_set tid
         match dict_get tid (threads s) with
         | Some th => Thread.append m th
         | None => Thread.mk tid (default_thread_name s) [m] None (now_post_init clk)
         end (threads s)) s.
Proof.
  unfold add_message, new_message. destruct thread_id as [t|]; simpl;
    by destruct (dict_get _ (threads s)).
Qed.

Lemma add_message_messages clk content role thread_id atts parent s :
  let tid := default (current_thread s) thread_id in
  messages_of tid (add_message clk content role thread_id atts parent s)
  = messages_of tid s ++ [new_message clk content role tid atts parent].
Proof.
  intros tid. rewrite add_message_unfold. fold tid.
  unfold messages_of at 1. simpl. rewrite dict_get_set_eq.
  unfold messages_of. by destruct (dict_get tid (threads s)).
Qed.

Lemma add_message_other clk content role thread_id atts parent s k :
  k <> default (current_thread s) thread_id ->
  dict_get k (threads (add_message clk content role thread_id atts parent s))
  = dict_get k (threads s).
Proof.
  intros Hk. rewrite add_message_unfold. simpl.
  by rewrite dict_get_set_ne.
Qed.

Lemma add_message_frame clk content role thread_id atts parent s :
  let s' := add_message clk content role thread_id atts parent s in
  current_thread s' = current_thread s
  /\ link_parent s' = link_parent s
  /\ uploaded_files s' = uploaded_files s.
Proof. simpl. by rewrite add_message_unfold. Qed.

(** C5: appending to a thread id that is not in the store creates, at the
    end of the store, a thread with that id, the default name
    ["Thread <count+1>"] and the message as its only one; appending to a
    known id appends the message to that thread's sequence and keeps the
    rest of its record. Either way the message is the last one of the
    thread afterwards and the other threads are untouched. *)
Theorem add_message_creates_or_appends
    (clk : Clock) (content role : str) (thread_id : option str)
    (atts : list FileDetails) (parent : option str) (s : SessionState) :
  let tid := default (current_thread s) thread_id in
  let m := new_message clk content role tid atts parent in
  let s' := add_message clk content role thread_id atts parent s in
  match dict_get tid (threads s) with
  | None =>
      threads s'
      = threads s
        ++ [(tid, Thread.mk tid (lit "Thread " ++ str_of_int (Z.of_nat (length (threads s)) + 1))
                            [m] None (now_post_init clk))]
  | Some th =>
      dict_get tid (threads s')
      = Some (Thread.mk (Thread.id th) (Thread.name th) (Thread.messages th ++ [m])
                        (Thread.parent_thread_id th) (Thread.created_at th))
      /\ dict_keys (threads s') = dict_keys (threads s)
  end
  /\ (exists th', dict_get tid (threads s') = Some th'
                  /\ last (Thread.messages th') = Some m)
  /\ (forall k, k <> tid -> dict_get k (threads s') = dict_get k (threads s)).
Proof.
  intros tid m s'. subst s'. rewrite add_message_unfold. fold tid m. simpl.
  split; [|split].
  - destruct (dict_get tid (threads s)) as [th|] eqn:Hget.
    + split; [by rewrite dict_get_set_eq|].
      by eapply dict_set_present_keys.
    + by rewrite dict_set_absent.
  - rewrite dict_get_set_eq. eexists; split; [done|].
    destruct (dict_get tid (threads s)) as [th|]; simpl; [|done].
    by rewrite last_snoc.
  - intros k Hk. by rewrite dict_get_set_ne.
Qed.

(** C10: a thread created by appending to an unknown id has no parent, is
    listed among the root threads, and holds exactly the appended
    message. *)
Theorem add_message_auto_created_is_root
    (clk : Clock) (content role : str) (thread_id : option str)
    (atts : list FileDetails) (parent : option str) (s : SessionState) :
  let tid := default (current_thread s) thread_id in
  let s' := add_message clk content role thread_id atts parent s in
  dict_get tid (threads s) = None ->
  exists th,
    dict_get tid (threads s') = Some th
    /\ Thread.parent_thread_id th = None
    /\ Thread.messages th = [new_message clk content role tid atts parent]
    /\ (tid, th) ∈ root_threads s'.
Proof.
  intros tid s' Hnone. subst s'. rewrite add_message_unfold. fold tid. simpl.
  rewrite Hnone, dict_get_set_eq. eexists; split; [done|].
  split; [done|]. split; [done|].
  unfold root_threads. simpl. apply list_elem_of_filter. split; [done|].
  rewrite dict_set_absent by done. apply elem_of_app. right. by left.
Qed.

(** ** The handlers of the input area *)

Lemma assistant_response_echo (text : str) (atts : list FileDetails) :
  assistant_response text atts = echo_reply text ++ attachment_suffix atts.
Proof.
  unfold assistant_response, echo_reply, attachment_suffix.
  destruct (decide (length text <= 50)%nat) as [Hle|Hgt].
  - assert ((50 <? length text)%nat = false) as -> by (apply Nat.ltb_ge; lia).
    destruct atts; [by rewrite app_nil_r|done].
  - assert ((50 <? length text)%nat = true) as -> by (apply Nat.ltb_lt; lia).
    destruct atts; [by rewrite app_nil_r|done].
Qed.

Section handler_facts.
Variable utf8_decode : list N -> option str.
Variable b64encode : list N -> str.

Lemma attach_frame uploaded s atts s1 :
  attach utf8_decode b64encode uploaded s = Ok (atts, s1) ->
  threads s1 = threads s
  /\ current_thread s1 = current_thread s
  /\ link_parent s1 = link_parent s.
Proof.
  unfold attach. destruct uploaded as [f|].
  - destruct (process_uploaded_file _ _ f); [|done].
    by intros [= <- <-].
  - by intros [= <- <-].
Qed.

Lemma messages_of_threads tid s s' :
  threads s' = threads s -> messages_of tid s' = messages_of tid s.
Proof. unfold messages_of. by intros ->. Qed.

(** What the send handler does once the text is not blank and the
    attachment (if any) was read. *)
Lemma send_unfold iw ck s atts s1 :
  send_clicked iw = true ->
  truthy (strip (message_input iw)) = true ->
  attach utf8_decode b64encode (uploaded_file iw) s = Ok (atts, s1) ->
  render_input_area utf8_decode b64encode iw ck s
  = Done (set_link_parent None
            (add_message (clk_assistant ck)
               (assistant_response (message_input iw) atts)
               (lit "assistant") None [] None
               (add_message (clk_user ck) (message_input iw) (lit "user")
                  None atts (link_parent s1) s1))).
Proof.
  intros Hsend Htext Hatt. unfold render_input_area.
  by rewrite Hsend, Htext, Hatt.
Qed.

(** C2 (as amended): a send with non-blank text whose uploaded file, if
    any, was read without a decoding error appends exactly two messages to
    the current thread, the user message with the given text and then the
    assistant message, leaves the other threads alone and clears the
    pending link target. *)
Theorem send_appends_user_then_assistant
    (iw : InputArea) (ck : Clocks) (s : SessionState)
    (atts : list FileDetails) (s1 : SessionState) :
  send_clicked iw = true ->
  truthy (strip (message_input iw)) = true ->
  attach utf8_decode b64encode (uploaded_file iw) s = Ok (atts, s1) ->
  exists s' u a,
    render_input_area utf8_decode b64encode iw ck s = Done s'
    /\ messages_of (current_thread s) s'
       = messages_of (current_thread s) s ++ [u; a]
    /\ Message.role u = lit "user"
    /\ Message.content u = message_input iw
    /\ Message.parent_id u = link_parent s
    /\ Message.thread_id u = current_thread s
    /\ Message.attachments u = atts
    /\ Message.role a = lit "assistant"
    /\ Message.parent_id a = None
    /\ Message.thread_id a = current_thread s
    /\ Message.attachments a = []
    /\ link_parent s' = None
    /\ current_thread s' = current_thread s
    /\ (forall k, k <> current_thread s ->
          dict_get k (threads s') = dict_get k (threads s)).
Proof.
  intros Hsend Htext Hatt.
  destruct (attach_frame _ _ _ _ Hatt) as (Hth & Hcur & Hlink).
  rewrite (send_unfold _ _ _ _ _ Hsend Htext Hatt).
  set (s2 := add_message (clk_user ck) _ _ None atts _ s1).
  set (s3 := add_message (clk_assistant ck) _ _ None [] None s2).
  destruct (add_message_frame (clk_user ck) (message_input iw) (lit "user")
              None atts (link_parent s1) s1) as (Hcur2 & _ & _).
  fold s2 in Hcur2.
  destruct (add_message_frame (clk_assistant ck)
              (assistant_response (message_input iw) atts) (lit "assistant")
              None [] None s2) as (Hcur3 & _ & _).
  fold s3 in Hcur3.
  eexists _, _, _. split; [done|].
  split.
  { change (messages_of (current_thread s) (set_link_parent None s3))
      with (messages_of (current_thread s) s3).
    pose proof (add_message_messages (clk_assistant ck)
                  (assistant_response (message_input iw) atts)
                  (lit "assistant") None [] None s2) as H3.
    pose proof (add_message_messages (clk_user ck) (message_input iw)
                  (lit "user") None atts (link_parent s1) s1) as H2.
    simpl in H2, H3. fold s2 in H2. fold s3 in H3.
    rewrite Hcur2 in H3. rewrite Hcur in H2, H3.
    rewrite H3, H2, (messages_of_threads _ s s1 Hth), <- app_assoc.
    simpl. reflexivity. }
  simpl. rewrite Hlink.
  repeat (split; [done|]).
  split; [by rewrite Hcur3, Hcur2|].
  intros k Hk. subst s3 s2.
  rewrite add_message_other, add_message_other, Hth; try done.
  - simpl. by rewrite Hcur.
  - simpl. by rewrite Hcur2, Hcur.
Qed.

(** C3 (as amended): a send whose text is empty or whitespace-only is
    ignored: the run ends normally, without an exception, and the
    session state (hence every thread) is unchanged. *)
Theorem blank_send_is_ignored
    (iw : InputArea) (ck : Clocks) (s : SessionState) :
  strip (message_input iw) = [] ->
  new_thread_clicked iw = false ->
  clear_clicked iw = false ->
  render_input_area utf8_decode b64encode iw ck s = Done s.
Proof.
  intros Hblank Hnew Hclear. unfold render_input_area.
  by rewrite Hblank, Hnew, Hclear, andb_false_r.
Qed.


(** C7: clearing empties the message sequence of the current thread
    and drops the pending link target; the thread keeps its id, name,
    parent and creation time, the store keeps its keys, and every
    other thread is unchanged. *)
Theorem clear_empties_current_thread_only
    (iw : InputArea) (ck : Clocks) (s : SessionState) (th : Thread.t) :
  send_clicked iw && truthy (strip (message_input iw)) = false ->
  new_thread_clicked iw = false ->
  clear_clicked iw = true ->
  dict_get (current_thread s) (threads s) = Some th ->
  exists s',
    render_input_area utf8_decode b64encode iw ck s = Done s'
    /\ dict_get (current_thread s) (threads s')
       = Some (Thread.mk (Thread.id th) (Thread.name th) []
                         (Thread.parent_thread_id th) (Thread.created_at th))
    /\ link_parent s' = None
    /\ current_thread s' = current_thread s
    /\ dict_keys (threads s') = dict_keys (threads s)
    /\ (forall k, k <> current_thread s ->
          dict_get k (threads s') = dict_get k (threads s)).
Proof.
  intros Hsend Hnew Hclear Hget. unfold render_input_area.
  rewrite Hsend, Hnew, Hclear, Hget.
  eexists; split; [done|]. simpl.
  split; [by rewrite dict_get_set_eq|].
  split; [done|]. split; [done|].
  split; [by eapply dict_set_present_keys|].
  intros k Hk. by rewrite dict_get_set_ne.
Qed.
End handler_facts.

(** ** Switching threads *)

Lemma render_conversations_tab_spec pressed items s :
  render_conversations_tab pressed items s
  = if dict_contains pressed items
    then Fired (set_current_thread pressed s) else Idle.
Proof.
  unfold dict_contains.
  induction items as [|[k th] items IH]; simpl; [done|].
  destruct (decide (pressed = k)) as [->|Hne].
  - by rewrite decide_True.
  - by rewrite decide_False.
Qed.

(** The message loop changes nothing but the pending link target, and
    without a press nothing at all, whether or not it raises. *)
Lemma link_buttons_frame pressed seen msgs s :
  let s' := final_state (link_buttons pressed seen msgs s) in
  threads s' = threads s
  /\ current_thread s' = current_thread s
  /\ uploaded_files s' = uploaded_files s.
Proof.
  revert seen s; induction msgs as [|m msgs IH]; intros seen s; simpl; [done|].
  destruct (bool_decide _); [done|].
  destruct (IH (Message.id m :: seen)
              (if decide (pressed = Some (Message.id m))
               then set_link_parent (Some (Message.id m)) s else s))
    as (-> & -> & ->).
  by destruct (decide _).
Qed.

Lemma link_buttons_none_state seen msgs s :
  final_state (link_buttons None seen msgs s) = s.
Proof.
  revert seen s; induction msgs as [|m msgs IH]; intros seen s; simpl; [done|].
  destruct (bool_decide _); [done|]. apply IH.
Qed.

Section run_facts.
Variable utf8_decode : list N -> option str.
Variable b64encode : list N -> str.

(** A run of the chat area in which nothing is pressed leaves the state
    as it is. *)
Lemma idle_chat_keeps_state ck s :
  final_state (render_chat_interface utf8_decode b64encode idle_chat ck s) = s.
Proof.
  unfold render_chat_interface.
  destruct (dict_get (current_thread s) (threads s)) as [th|]; [|done].
  simpl. pose proof (link_buttons_none_state [] (Thread.messages th) s) as H.
  by destruct (link_buttons None [] (Thread.messages th) s).
Qed.
End run_facts.

(** ** The session invariant *)

Lemma Forall_dict_set {V} (P : str * V -> Prop) k v (d : list (str * V)) :
  Forall P d -> P (k, v) -> Forall P (dict_set k v d).
Proof.
  intros Hd Hkv. induction Hd as [|[k0 v0] d H0 Hd IH]; simpl.
  - by constructor.
  - destruct (decide (k0 = k)); constructor; auto.
Qed.

Lemma session_inv_set_thread s k th :
  session_inv s ->
  Thread.parent_thread_id th = None ->
  session_inv (set_threads (dict_set k th (threads s)) s).
Proof.
  intros (Hcur & Hmain & Hflat) Hp. unfold session_inv; simpl.
  split; [by apply dict_contains_set|].
  split; [by apply dict_contains_set|].
  by apply Forall_dict_set.
Qed.

Lemma session_inv_parent s k th :
  session_inv s -> dict_get k (threads s) = Some th ->
  Thread.parent_thread_id th = None.
Proof.
  intros (_ & _ & Hflat) Hget. apply dict_get_Some_In in Hget.
  rewrite Forall_forall in Hflat. apply (Hflat (k, th)).
  by apply list_elem_of_In.
Qed.

Lemma session_inv_add_message clk content role thread_id atts parent s :
  session_inv s ->
  session_inv (add_message clk content role thread_id atts parent s).
Proof.
  intros Hinv. rewrite add_message_unfold. simpl.
  apply session_inv_set_thread; [done|].
  destruct (dict_get _ (threads s)) as [th|] eqn:Hget; [|done].
  simpl. by eapply session_inv_parent.
Qed.

Lemma session_inv_switch s tid :
  session_inv s -> dict_contains tid (threads s) = true ->
  session_inv (set_current_thread tid s).
Proof. intros (Hcur & Hmain & Hflat) Htid. by repeat split. Qed.

Lemma session_inv_new_thread clk s :
  session_inv s ->
  session_inv (set_current_thread (create_new_thread clk None s).1
                                  (create_new_thread clk None s).2).
Proof.
  intros Hinv. unfold create_new_thread. simpl.
  apply session_inv_switch.
  - by apply session_inv_set_thread.
  - simpl. apply dict_contains_set_eq.
Qed.

Lemma session_inv_set_link s l :
  session_inv s -> session_inv (set_link_parent l s).
Proof. by intros (Hcur & Hmain & Hflat). Qed.

Lemma session_inv_set_files s u :
  session_inv s -> session_inv (set_uploaded_files u s).
Proof. by intros (Hcur & Hmain & Hflat). Qed.

Lemma session_inv_link_buttons pressed seen msgs s :
  session_inv s -> session_inv (final_state (link_buttons pressed seen msgs s)).
Proof.
  revert seen s; induction msgs as [|m msgs IH]; intros seen s Hinv; simpl;
    [done|].
  destruct (bool_decide _); [done|].
  apply IH. destruct (decide _); [by apply session_inv_set_link|done].
Qed.

(** A fired tree button switches to a thread of the store. *)
Lemma tree_children_fired (Q : SessionState -> Prop) visit thread_id items s' :
  (forall t r, visit t = Some (Fired r) -> Q r) ->
  tree_children visit thread_id items = Some (Fired s') -> Q s'.
Proof.
  intros Hvisit. induction items as [|[tid t] items IH]; simpl; [done|].
  destruct (decide _) as [Hp|Hp]; [|done].
  destruct (visit tid) as [[r|x|]|] eqn:Hv; try done.
  intros [= <-]. by eapply Hvisit.
Qed.

Lemma render_thread_tree_fired fuel pressed thread_id level s s' :
  render_thread_tree fuel pressed thread_id level s = Some (Fired s') ->
  exists t, dict_contains t (threads s) = true /\ s' = set_current_thread t s.
Proof.
  revert thread_id level s'.
  induction fuel as [|fuel IH]; intros thread_id level s'; simpl; [done|].
  destruct (dict_get thread_id (threads s)) as [th|] eqn:Hget; [|done].
  destruct (decide _) as [Hp|Hp].
  - intros [= <-]. exists thread_id. unfold dict_contains. by rewrite Hget.
  - apply (tree_children_fired
             (fun r => exists t, dict_contains t (threads s) = true
                                 /\ r = set_current_thread t s)).
    intros t r. apply IH.
Qed.

Lemma render_threads_tab_fired fuel pressed items s s' :
  render_threads_tab fuel pressed items s = Some (Fired s') ->
  exists t, dict_contains t (threads s) = true /\ s' = set_current_thread t s.
Proof.
  induction items as [|[tid th] items IH]; simpl; [done|].
  destruct (Thread.parent_thread_id th); [done|].
  destruct (render_thread_tree fuel pressed tid 0 s) as [[r|x|]|] eqn:Ht;
    try done.
  intros [= <-]. by eapply render_thread_tree_fired.
Qed.

(** With every thread a root, one unit of fuel is enough for the tree. *)
Lemma tree_children_flat visit thread_id items :
  Forall (fun it => Thread.parent_thread_id it.2 = None) items ->
  tree_children visit thread_id items = Some Idle.
Proof.
  induction 1 as [|[tid t] items Hp _ IH]; simpl; [done|].
  simpl in Hp. rewrite Hp. by rewrite decide_False.
Qed.

Lemma render_threads_tab_total fuel pressed items s :
  Forall (fun it => Thread.parent_thread_id it.2 = None) (threads s) ->
  is_Some (render_threads_tab (S fuel) pressed items s).
Proof.
  intros Hflat. induction items as [|[tid th] items IH]; [by eexists|].
  cbn [render_threads_tab].
  destruct (Thread.parent_thread_id th); [done|].
  cbn [render_thread_tree].
  destruct (dict_get tid (threads s)); [|by eexists].
  destruct (decide _); [by eexists|].
  by rewrite tree_children_flat.
Qed.

Section invariant.
Variable utf8_decode : list N -> option str.
Variable b64encode : list N -> str.

Lemma session_inv_attach uploaded s atts s1 :
  attach utf8_decode b64encode uploaded s = Ok (atts, s1) ->
  session_inv s -> session_inv s1.
Proof.
  unfold attach. destruct uploaded as [f|].
  - destruct (process_uploaded_file _ _ f); [|done].
    intros [= <- <-]. apply session_inv_set_files.
  - by intros [= <- <-].
Qed.

Lemma session_inv_input_area w ck s :
  session_inv s ->
  session_inv (final_state (render_input_area utf8_decode b64encode w ck s)).
Proof.
  intros Hinv. unfold render_input_area.
  destruct (send_clicked w && truthy (strip (message_input w))).
  { destruct (attach _ _ _ s) as [[atts s1]|e] eqn:Hatt; [|done].
    simpl. apply session_inv_set_link.
    do 2 apply session_inv_add_message. by eapply session_inv_attach. }
  destruct (new_thread_clicked w).
  { destruct (create_new_thread _ None s) as [tid s1] eqn:Hnew.
    pose proof (session_inv_new_thread (clk_thread ck) s Hinv) as H.
    by rewrite Hnew in H. }
  destruct (clear_clicked w); [|done].
  destruct (dict_get _ (threads s)) as [th|] eqn:Hget; [|done].
  simpl. apply session_inv_set_link, session_inv_set_thread; [done|].
  simpl. by eapply session_inv_parent.
Qed.

Lemma session_inv_chat w ck s :
  session_inv s ->
  session_inv (final_state (render_chat_interface utf8_decode b64encode w ck s)).
Proof.
  intros Hinv. unfold render_chat_interface.
  destruct (dict_get _ (threads s)) as [th|]; [|done].
  destruct (header_new_thread w).
  - destruct (create_new_thread _ None s) as [tid s1] eqn:Hnew.
    pose proof (session_inv_new_thread (clk_thread ck) s Hinv) as H.
    by rewrite Hnew in H.
  - pose proof (session_inv_link_buttons (link_pressed w) []
                  (Thread.messages th) s Hinv) as Hl.
    destruct (link_buttons _ _ _ s) as [s1|e s1]; [|done].
    by apply session_inv_input_area.
Qed.

Lemma session_inv_sidebar sb s r :
  session_inv s -> render_sidebar sb s = Some (Fired r) -> session_inv r.
Proof.
  intros Hinv. destruct sb as [|[p|]|fuel [p|]|[i|]|toggle ex]; simpl; try done.
  - rewrite render_conversations_tab_spec.
    destruct (dict_contains p (threads s)) eqn:Hp; [|done].
    intros [= <-]. by apply session_inv_switch.
  - intros H. apply render_threads_tab_fired in H as (t & Ht & ->).
    by apply session_inv_switch.
  - unfold render_files_tab. destruct (decide _); [|done].
    intros [= <-]. by apply session_inv_set_files.
  - destruct toggle; [|done]. by intros [= <-].
Qed.

Lemma session_inv_main r s o :
  session_inv s -> main utf8_decode b64encode r s = Some o ->
  session_inv (final_state o).
Proof.
  intros Hinv. unfold main.
  destruct (render_sidebar (sidebar r) s) as [[s'|e|]|] eqn:Hsb; [| | |done].
  - intros [= <-]. by eapply session_inv_sidebar.
  - by intros [= <-].
  - intros [= <-]. by apply session_inv_chat.
Qed.

Lemma reachable_session_inv s :
  reachable utf8_decode b64encode s -> session_inv s.
Proof.
  induction 1 as [created|r s o _ IH Hrun].
  - repeat split; [done..|]. by repeat constructor.
  - by eapply session_inv_main.
Qed.

(** Every run from a reachable state ends, given one unit of fuel for
    the thread tree. *)
Lemma main_total sb w ck s :
  reachable utf8_decode b64encode s ->
  (forall fuel p, sb = NestedThreads fuel p -> (0 < fuel)%nat) ->
  is_Some (main utf8_decode b64encode (mk_run sb w ck) s).
Proof.
  intros Hreach Hfuel. apply reachable_session_inv in Hreach as (_ & _ & Hflat).
  unfold main; simpl.
  assert (is_Some (render_sidebar sb s)) as [t Ht].
  { destruct sb as [|[p|]|fuel [p|]|[i|]|toggle ex]; simpl; try by eexists.
    - destruct fuel as [|fuel]; [specialize (Hfuel 0%nat (Some p) eq_refl); lia|].
      by apply render_threads_tab_total.
    - destruct toggle; by eexists. }
  rewrite Ht. destruct t; by eexists.
Qed.

(** C8: in every state reachable from initialization by any sequence of
    runs (send, new thread, switch, clear, link, file removal), the
    current thread is a thread of the store, and so is ["main"]. *)
Theorem current_and_main_thread_always_exist (s : SessionState) :
  reachable utf8_decode b64encode s ->
  dict_contains (current_thread s) (threads s) = true
  /\ dict_contains (lit "main") (threads s) = true.
Proof.
  intros Hreach. apply reachable_session_inv in Hreach as (Hcur & Hmain & _).
  by split.
Qed.
End invariant.

(** ** Export *)

Lemma is_digit_digit (n : N) : is_digit (digit n) = true.
Proof.
  unfold is_digit, digit.
  assert (n mod 10 < 10)%N as Hlt by (apply N.mod_lt; lia).
  generalize dependent (n mod 10)%N. intros m Hlt.
  apply andb_true_iff; split; apply N.leb_le; lia.
Qed.

Lemma zero_padded_length (w : nat) (n : N) : length (zero_padded w n) = w.
Proof.
  revert n; induction w as [|w IH]; intros n; simpl; [done|].
  rewrite length_app, IH. simpl. lia.
Qed.

Lemma zero_padded_digits (w : nat) (n : N) :
  forallb is_digit (zero_padded w n) = true.
Proof.
  revert n; induction w as [|w IH]; intros n; simpl; [done|].
  rewrite forallb_app, IH. simpl. by rewrite is_digit_digit.
Qed.

(** The text of a timestamp has the ISO 8601 shape. *)
Lemma datetime_str_iso8601 (d : datetime) :
  iso8601_shape (datetime_str d) = true.
Proof.
  unfold datetime_str, isoformat.
  destruct (microsecond d =? 0)%N.
  - cbn -[digit is_digit N.div]. by rewrite !is_digit_digit.
  - cbn -[digit is_digit N.div]. by rewrite !is_digit_digit.
Qed.

Lemma digit_inj (m n : N) : digit m = digit n -> (m mod 10 = n mod 10)%N.
Proof. unfold digit. intros H. by apply N.add_cancel_l in H. Qed.

Lemma zero_padded_inj (w : nat) (m n : N) :
  (m < 10 ^ N.of_nat w)%N -> (n < 10 ^ N.of_nat w)%N ->
  zero_padded w m = zero_padded w n -> m = n.
Proof.
  revert m n; induction w as [|w IH]; intros m n Hm Hn H.
  - simpl in Hm, Hn. lia.
  - cbn [zero_padded] in H. apply app_inj_tail in H as [Hhi Hlo].
    apply digit_inj in Hlo.
    rewrite Nat2N.inj_succ, N.pow_succ_r' in Hm, Hn.
    assert (m / 10 = n / 10)%N as Hdiv.
    { apply IH; [| |done]; apply N.Div0.div_lt_upper_bound; lia. }
    rewrite (N.div_mod' m 10), (N.div_mod' n 10). by rewrite Hdiv, Hlo.
Qed.

(** The text is canonical: two datetimes with the same text are equal. *)
Lemma datetime_str_inj (d1 d2 : datetime) :
  valid_datetime d1 -> valid_datetime d2 ->
  datetime_str d1 = datetime_str d2 -> d1 = d2.
Proof.
  intros (Hy1 & Hm1 & Hd1 & Hh1 & Hn1 & Hs1 & Hu1)
         (Hy2 & Hm2 & Hd2 & Hh2 & Hn2 & Hs2 & Hu2).
  unfold datetime_str, isoformat. intros H.
  repeat (apply app_inj_1 in H as [? H];
          [|by rewrite ?zero_padded_length]).
  destruct d1 as [y1 mo1 da1 h1 mi1 s1 u1], d2 as [y2 mo2 da2 h2 mi2 s2 u2].
  simpl in *.
  assert (u1 = u2) as ->.
  { destruct (N.eqb_spec u1 0) as [->|Hu1'], (N.eqb_spec u2 0) as [->|Hu2'];
      try done.
    apply (app_inj_1 [46%N] [46%N]) in H as [_ H]; [|done].
    apply (zero_padded_inj 6); [lia..|done]. }
  f_equal; [apply (zero_padded_inj 4)|apply (zero_padded_inj 2)..];
    try done; simpl; lia.
Qed.

Lemma json_file_shape (f : FileDetails) :
  json_dumps (asdict_file f)
  = JObject
      [(lit "name", JString (fd_name f));
       (lit "size", JNumber (fd_size f));
       (lit "type", JString (fd_type f));
       (lit "content",
        match fd_content f with Some c => JString c | None => JNull end)].
Proof. unfold asdict_file. simpl. by destruct (fd_content f). Qed.

Lemma json_message_shape (m : Message.t) :
  json_dumps (asdict_message m)
  = JObject
      [(lit "id", JString (Message.id m));
       (lit "content", JString (Message.content m));
       (lit "role", JString (Message.role m));
       (lit "timestamp", JString (datetime_str (Message.timestamp m)));
       (lit "parent_id",
        match Message.parent_id m with Some p => JString p | None => JNull end);
       (lit "thread_id", JString (Message.thread_id m));
       (lit "attachments",
        JArray
          (map (fun f =>
                  JObject
                    [(lit "name", JString (fd_name f));
                     (lit "size", JNumber (fd_size f));
                     (lit "type", JString (fd_type f));
                     (lit "content",
                      match fd_content f with
                      | Some c => JString c | None => JNull end)])
               (Message.attachments m)))].
Proof.
  unfold asdict_message. cbn [json_dumps map fst snd].
  rewrite map_map. rewrite (map_ext _ _ json_file_shape).
  by destruct (Message.parent_id m).
Qed.

Section export_facts.
Variable utf8_decode : list N -> option str.
Variable b64encode : list N -> str.

(** C9 (as amended): the export leaves the session state as it is, also
    as a whole run with the export button pressed, and hands out an object
    with exactly the keys ["threads"] and ["current_thread"]. Under
    ["threads"] every thread id of the store, in store order, has the
    record of its thread with all its messages and their attachments, the
    fields named as in the dataclasses. The creation time of every thread
    and the timestamp of every message are written as the text
    [YYYY-MM-DD HH:MM:SS[.ffffff]], which has the ISO 8601 shape and is
    canonical (equal texts come from equal datetimes). *)
Theorem export_writes_store_with_textual_timestamps
    (ck : Clocks) (s : SessionState) :
  (render_settings_tab true s).1 = s
  /\ (forall o,
        main utf8_decode b64encode (mk_run (Settings false true) idle_chat ck) s
        = Some o -> final_state o = s)
  /\ (render_settings_tab true s).2
     = Some
         (JObject
            [(lit "threads",
              JObject
                (map
                   (fun it =>
                      (it.1,
                       JObject
                         [(lit "id", JString (Thread.id it.2));
                          (lit "name", JString (Thread.name it.2));
                          (lit "messages",
                           JArray
                             (map
                                (fun m =>
                                   JObject
                                     [(lit "id", JString (Message.id m));
                                      (lit "content",
                                       JString (Message.content m));
                                      (lit "role", JString (Message.role m));
                                      (lit "timestamp",
                                       JString
                                         (datetime_str (Message.timestamp m)));
                                      (lit "parent_id",
                                       match Message.parent_id m with
                                       | Some p => JString p
                                       | None => JNull
                                       end);
                                      (lit "thread_id",
                                       JString (Message.thread_id m));
                                      (lit "attachments",
                                       JArray
                                         (map
                                            (fun f =>
                                               JObject
                                                 [(lit "name",
                                                   JString (fd_name f));
                                                  (lit "size",
                                                   JNumber (fd_size f));
                                                  (lit "type",
                                                   JString (fd_type f));
                                                  (lit "content",
                                                   match fd_content f with
                                                   | Some c => JString c
                                                   | None => JNull
                                                   end)])
                                            (Message.attachments m)))])
                                (Thread.messages it.2)));
                          (lit "parent_thread_id",
                           match Thread.parent_thread_id it.2 with
                           | Some p => JString p
                           | None => JNull
                           end);
                          (lit "created_at",
                           JString (datetime_str (Thread.created_at it.2)))]))
                   (threads s)));
             (lit "current_thread", JString (current_thread s))])
  /\ (forall d, iso8601_shape (datetime_str d) = true)
  /\ (forall d1 d2, valid_datetime d1 -> valid_datetime d2 ->
                    datetime_str d1 = datetime_str d2 -> d1 = d2).
Proof.
  split; [done|]. split.
  { intros o. unfold main. cbn [sidebar render_sidebar chat clocks].
    intros [= <-]. apply idle_chat_keeps_state. }
  split.
  { unfold render_settings_tab, export_data. cbn [json_dumps map fst snd].
    do 5 f_equal. rewrite map_map. apply map_ext. intros [k th].
    cbn [fst snd]. f_equal. unfold asdict_thread. cbn [json_dumps map fst snd].
    rewrite map_map. rewrite (map_ext _ _ json_message_shape).
    by destruct (Thread.parent_thread_id th). }
  split; [apply datetime_str_iso8601|apply datetime_str_inj].
Qed.
End export_facts.

(** * Closed examples *)

(** C1: two distinct clock readings give two distinct ids. *)
Lemma create_new_thread_ids_unique_witness :
  NoDup [1715938200000; 1715938200001]
  /\ NoDup (create_many [(sample_clock, None); (later_clock, None)] fresh_session).
Proof.
  assert (NoDup [1715938200000; 1715938200001]) as Hnd.
  { apply NoDup_cons; split; [|apply NoDup_singleton].
    intros H. apply list_elem_of_singleton in H. discriminate H. }
  split; [exact Hnd|].
  apply (create_new_thread_ids_unique
           [(sample_clock, None); (later_clock, None)] fresh_session).
  exact Hnd.
Defined.

(** C1 as stated fails: two calls within the same millisecond return
    the same id (and the second thread replaces the first). *)
Lemma create_new_thread_same_ms_collides :
  ~ NoDup (create_many [(sample_clock, None); (sample_clock, None)] fresh_session).
Proof.
  intros H. apply NoDup_cons in H as [Hnotin _].
  apply Hnotin. simpl. apply list_elem_of_here.
Qed.

(** The collision loses a thread: after two creations in the same
    millisecond the store holds ["main"] and one new thread. *)
Lemma create_new_thread_same_ms_overwrites :
  length (threads (create_new_thread sample_clock None
                     (create_new_thread sample_clock None fresh_session).2).2)
  = 2%nat.
Proof. reflexivity. Qed.

(** C2: "Hello" sent in a fresh session. *)
Lemma send_appends_user_then_assistant_witness :
  exists s' u a,
    render_input_area example_decode example_b64encode (send_of (lit "Hello")) sample_clocks fresh_session = Done s'
    /\ messages_of (lit "main") s' = [u; a]
    /\ Message.role u = lit "user"
    /\ Message.content u = lit "Hello"
    /\ Message.role a = lit "assistant"
    /\ link_parent s' = None.
Proof.
  destruct (send_appends_user_then_assistant example_decode example_b64encode
              (send_of (lit "Hello")) sample_clocks fresh_session []
              fresh_session eq_refl eq_refl eq_refl)
    as (s' & u & a & Hrun & Hmsgs & Hru & Hcu & _ & _ & _ & Hra & _ & _ & _
        & Hlink & _).
  exists s', u, a. repeat split; assumption.
Defined.

(** C2 as stated fails: "hi" is not blank, yet the send raises on the
    uploaded text file, whose bytes do not decode, and appends nothing. *)
Lemma send_with_undecodable_file_appends_nothing :
  truthy (strip (lit "hi")) = true
  /\ render_input_area example_decode example_b64encode
       (send_with broken_text_file (lit "hi")) sample_clocks fresh_session
     = Raise UnicodeDecodeError fresh_session
  /\ messages_of (lit "main") fresh_session = [].
Proof. repeat split; reflexivity. Qed.

(** C3: a whitespace-only text. *)
Lemma blank_send_is_ignored_witness :
  strip (lit "   ") = []
  /\ render_input_area example_decode example_b64encode (send_of (lit "   ")) sample_clocks chatty_session
     = Done chatty_session.
Proof.
  split; [reflexivity|].
  apply (blank_send_is_ignored example_decode example_b64encode
           (send_of (lit "   ")) sample_clocks chatty_session);
    reflexivity.
Defined.

(** C3 as stated fails: the blank send is not rejected with an error. *)
Lemma blank_send_does_not_fail :
  ~ fails (render_input_area example_decode example_b64encode (send_of (lit "   ")) sample_clocks fresh_session)
  /\ ~ fails (render_input_area example_decode example_b64encode (send_of []) sample_clocks fresh_session).
Proof. split; intros (e & s & H); vm_compute in H; discriminate H. Qed.


(** C7: clearing ["main"] of the sample session. *)
Lemma clear_empties_current_thread_only_witness :
  exists s',
    render_input_area example_decode example_b64encode clear_press sample_clocks chatty_session = Done s'
    /\ dict_get (lit "main") (threads s')
       = Some (Thread.mk (lit "main") (lit "Main Conversation") [] None
                         sample_time)
    /\ link_parent s' = None.
Proof.
  destruct (clear_empties_current_thread_only example_decode
              example_b64encode clear_press sample_clocks chatty_session
              (Thread.mk (lit "main") (lit "Main Conversation")
                 [new_message sample_clock (lit "Hello") (lit "user")
                              (lit "main") [] None]
                 None sample_time)
              eq_refl eq_refl eq_refl eq_refl)
    as (s' & Hrun & Hget & Hlink & _).
  exists s'. repeat split; assumption.
Defined.

(** C8: the state after "Hello" was sent, then a new thread opened. *)
Lemma current_and_main_thread_always_exist_witness :
  exists s,
    reachable example_decode example_b64encode s
    /\ length (threads s) = 2%nat
    /\ dict_contains (current_thread s) (threads s) = true
    /\ dict_contains (lit "main") (threads s) = true.
Proof.
  set (r1 := mk_run Home (mk_chat_widgets false None (send_of (lit "Hello")))
                    sample_clocks).
  set (r2 := mk_run Home (mk_chat_widgets true None (send_of [])) sample_clocks).
  set (o1 := render_chat_interface example_decode example_b64encode
               (chat r1) (clocks r1) fresh_session).
  set (o2 := render_chat_interface example_decode example_b64encode
               (chat r2) (clocks r2) (final_state o1)).
  assert (reachable example_decode example_b64encode (final_state o2)) as Hr.
  { apply (reachable_run _ _ r2 (final_state o1) o2); [|reflexivity].
    apply (reachable_run _ _ r1 fresh_session o1); [|reflexivity].
    apply reachable_init. }
  exists (final_state o2). split; [exact Hr|]. split; [reflexivity|].
  exact (current_and_main_thread_always_exist example_decode
           example_b64encode (final_state o2) Hr).
Defined.

(** C9 as stated fails: the exported object has no key
    ["currentThreadId"]; its keys are ["threads"] and ["current_thread"].
    The creation time is written with a space between date and time. *)
Lemma export_has_no_currentThreadId_key :
  exists items main_record,
    (render_settings_tab true fresh_session).2 = Some (JObject items)
    /\ map fst items = [lit "threads"; lit "current_thread"]
    /\ dict_get (lit "currentThreadId") items = None
    /\ dict_get (lit "current_thread") items = Some (JString (lit "main"))
    /\ (dict_get (lit "threads") items ≫= jfield (lit "main"))
       = Some main_record
    /\ jfield (lit "created_at") main_record
       = Some (JString (lit "2024-05-17 09:30:00")).
Proof. eexists _, _. repeat split; reflexivity. Qed.

(** C10: appending to the unknown id ["ghost"]. *)
Lemma add_message_auto_created_is_root_witness :
  dict_get (lit "ghost") (threads fresh_session) = None
  /\ exists th,
       dict_get (lit "ghost")
         (threads (add_message sample_clock (lit "boo") (lit "user")
                     (Some (lit "ghost")) [] None fresh_session))
       = Some th
       /\ Thread.parent_thread_id th = None
       /\ length (Thread.messages th) = 1%nat.
Proof.
  split; [reflexivity|].
  destruct (add_message_auto_created_is_root sample_clock (lit "boo")
              (lit "user") (Some (lit "ghost")) [] None fresh_session eq_refl)
    as (th & Hget & Hparent & Hmsgs & _).
  exists th. split; [exact Hget|]. split; [exact Hparent|].
  rewrite Hmsgs. reflexivity.
Defined.

(** * Further properties *)

(** ** The store stays well formed *)

Lemma dict_set_set {V} k (v1 v2 : V) (d : list (str * V)) :
  dict_set k v2 (dict_set k v1 d) = dict_set k v2 d.
Proof.
  induction d as [|[k0 v0] d IH]; simpl.
  - by rewrite decide_True.
  - destruct (decide (k0 = k)) as [->|Hne]; simpl.
    + by rewrite decide_True.
    + rewrite decide_False by done. by rewrite IH.
Qed.

Lemma dict_get_In_Some {V} k (v : V) (d : list (str * V)) :
  In (k, v) d -> dict_contains k d = true.
Proof.
  unfold dict_contains. induction d as [|[k0 v0] d IH]; simpl; [done|].
  intros [[= -> ->]|Hin].
  - by rewrite decide_True.
  - destruct (decide (k0 = k)); [done|by apply IH].
Qed.

Lemma dict_keys_set_NoDup {V} k (v : V) (d : list (str * V)) :
  NoDup (dict_keys d) -> NoDup (dict_keys (dict_set k v d)).
Proof.
  intros Hnd. destruct (dict_get k d) as [v0|] eqn:Hget.
  - by rewrite (dict_set_present_keys k v v0 d Hget).
  - rewrite dict_set_absent by done. unfold dict_keys.
    rewrite map_app. simpl. apply NoDup_app. split; [done|].
    split; [|apply NoDup_singleton].
    intros x Hx Hk. apply list_elem_of_singleton in Hk as ->.
    apply dict_get_None_keys in Hget. apply Hget. by apply list_elem_of_In.
Qed.

Lemma store_wf_set k th d :
  store_wf d -> thread_ok k th -> store_wf (dict_set k th d).
Proof.
  intros [Hnd Hall] Hok. split.
  - by apply dict_keys_set_NoDup.
  - by apply Forall_dict_set.
Qed.

Lemma store_wf_lookup k th d :
  store_wf d -> dict_get k d = Some th -> thread_ok k th.
Proof.
  intros [_ Hall] Hget. apply dict_get_Some_In in Hget.
  rewrite Forall_forall in Hall. apply (Hall (k, th)). by apply list_elem_of_In.
Qed.

Lemma exchanges_nil : exchanges [].
Proof. split; [done|]. intros i m H. by rewrite lookup_nil in H. Qed.

Lemma exchanges_snoc2 msgs u a :
  exchanges msgs ->
  Message.role u = lit "user" ->
  Message.role a = lit "assistant" ->
  Message.parent_id a = None ->
  Message.attachments a = [] ->
  exchanges (msgs ++ [u; a]).
Proof.
  intros [Heven Hroles] Hu Ha Hp Hatt. split.
  - rewrite length_app, Nat.add_comm. simpl. exact Heven.
  - intros i m Hi. destruct (decide (i < length msgs)%nat) as [Hlt|Hge].
    + rewrite lookup_app_l in Hi by done. by apply Hroles.
    + rewrite lookup_app_r in Hi by lia.
      destruct (i - length msgs)%nat as [|[|n]] eqn:Hd; simpl in Hi;
        [| |by rewrite lookup_nil in Hi]; injection Hi as <-.
      * assert (i = length msgs) as -> by lia.
        unfold role_at. rewrite Heven. split; [done|]. by intros [=].
      * assert (i = S (length msgs)) as -> by lia.
        unfold role_at. rewrite Nat.even_succ, <- Nat.negb_even, Heven.
        by split.
Qed.

Lemma thread_ok_exchange k th u a :
  thread_ok k th ->
  Message.thread_id u = k -> Message.thread_id a = k ->
  Message.role u = lit "user" ->
  Message.role a = lit "assistant" ->
  Message.parent_id a = None ->
  Message.attachments a = [] ->
  thread_ok k (Thread.append a (Thread.append u th)).
Proof.
  intros (Hid & Htid & Hex) Hu Ha Hru Hra Hp Hatt.
  unfold thread_ok; simpl. split; [done|]. rewrite <- app_assoc. simpl.
  split; [|by apply exchanges_snoc2].
  apply Forall_app. split; [done|]. by repeat constructor.
Qed.

Lemma thread_ok_clear k th : thread_ok k th -> thread_ok k (Thread.clear th).
Proof.
  intros (Hid & _ & _). unfold thread_ok; simpl.
  split; [done|]. split; [constructor|apply exchanges_nil].
Qed.

Lemma thread_ok_empty k name parent created :
  thread_ok k (Thread.mk k name [] parent created).
Proof. split; [done|]. split; [constructor|apply exchanges_nil]. Qed.

(** The store after the two [add_message] calls of a send: one entry,
    that of the current thread, is replaced or added. *)
Lemma send_threads cu ca text reply atts parent s :
  threads
    (add_message ca reply (lit "assistant") None [] None
       (add_message cu text (lit "user") None atts parent s))
  = dict_set (current_thread s)
      (Thread.append
         (new_message ca reply (lit "assistant") (current_thread s) [] None)
         match dict_get (current_thread s) (threads s) with
         | Some th =>
             Thread.append
               (new_message cu text (lit "user") (current_thread s) atts parent) th
         | None =>
             Thread.mk (current_thread s) (default_thread_name s)
               [new_message cu text (lit "user") (current_thread s) atts parent]
               None (now_post_init cu)
         end)
      (threads s).
Proof.
  rewrite (add_message_unfold ca).
  rewrite (add_message_unfold cu). simpl.
  rewrite dict_get_set_eq, dict_set_set.
  by destruct (dict_get (current_thread s) (threads s)).
Qed.

Lemma store_wf_send cu ca text reply atts parent s :
  store_wf (threads s) ->
  store_wf (threads
              (add_message ca reply (lit "assistant") None [] None
                 (add_message cu text (lit "user") None atts parent s))).
Proof.
  intros Hwf. rewrite send_threads. apply store_wf_set; [done|].
  destruct (dict_get (current_thread s) (threads s)) as [th|] eqn:Hget.
  - apply thread_ok_exchange; try done. by eapply store_wf_lookup.
  - apply (thread_ok_exchange _
             (Thread.mk (current_thread s) (default_thread_name s) [] None
                        (now_post_init cu)));
      first [done|apply thread_ok_empty].
Qed.

Section store_invariant.
Variable utf8_decode : list N -> option str.
Variable b64encode : list N -> str.

Lemma store_wf_input_area w ck s :
  store_wf (threads s) ->
  store_wf (threads (final_state
                       (render_input_area utf8_decode b64encode w ck s))).
Proof.
  intros Hwf. unfold render_input_area.
  destruct (send_clicked w && truthy (strip (message_input w))).
  { destruct (attach _ _ _ s) as [[atts s1]|e] eqn:Hatt; [|done].
    destruct (attach_frame _ _ _ _ _ _ Hatt) as (Hth & _ & _).
    simpl. apply store_wf_send. by rewrite Hth. }
  destruct (new_thread_clicked w).
  { simpl. apply store_wf_set; [done|apply thread_ok_empty]. }
  destruct (clear_clicked w); [|done].
  destruct (dict_get _ (threads s)) as [th|] eqn:Hget; [|done].
  simpl. apply store_wf_set; [done|].
  apply thread_ok_clear. by eapply store_wf_lookup.
Qed.

Lemma store_wf_chat w ck s :
  store_wf (threads s) ->
  store_wf (threads (final_state
                       (render_chat_interface utf8_decode b64encode w ck s))).
Proof.
  intros Hwf. unfold render_chat_interface.
  destruct (dict_get _ (threads s)) as [th|]; [|done].
  destruct (header_new_thread w).
  - simpl. apply store_wf_set; [done|apply thread_ok_empty].
  - destruct (link_buttons_frame (link_pressed w) [] (Thread.messages th) s)
      as (Hth & _ & _).
    destruct (link_buttons _ _ _ s) as [s1|e s1]; simpl in Hth.
    + apply store_wf_input_area. by rewrite Hth.
    + simpl. by rewrite Hth.
Qed.

Lemma sidebar_keeps_threads sb s r :
  render_sidebar sb s = Some (Fired r) -> threads r = threads s.
Proof.
  destruct sb as [|[p|]|fuel [p|]|[i|]|toggle ex]; simpl; try done.
  - rewrite render_conversations_tab_spec.
    destruct (dict_contains p (threads s)); [|done]. by intros [= <-].
  - intros H. by apply render_threads_tab_fired in H as (t & _ & ->).
  - unfold render_files_tab. destruct (decide _); [|done]. by intros [= <-].
  - destruct toggle; [|done]. by intros [= <-].
Qed.

Lemma store_wf_main r s o :
  store_wf (threads s) -> main utf8_decode b64encode r s = Some o ->
  store_wf (threads (final_state o)).
Proof.
  intros Hwf. unfold main.
  destruct (render_sidebar (sidebar r) s) as [[s'|e|]|] eqn:Hsb; [| | |done].
  - intros [= <-]. simpl. by rewrite (sidebar_keeps_threads _ _ _ Hsb).
  - by intros [= <-].
  - intros [= <-]. by apply store_wf_chat.
Qed.

Lemma reachable_store_wf s :
  reachable utf8_decode b64encode s -> store_wf (threads s).
Proof.
  induction 1 as [created|r s o _ IH Hrun].
  - split; simpl.
    + apply NoDup_singleton.
    + constructor; [apply thread_ok_empty|constructor].
  - by eapply store_wf_main.
Qed.

(** X1: in every reachable state the thread ids of the store are
    pairwise distinct and every thread record carries, as its [id], the
    key it is stored under. *)
Theorem store_keys_distinct_and_match_ids (s : SessionState) :
  reachable utf8_decode b64encode s ->
  NoDup (dict_keys (threads s))
  /\ forall k th, In (k, th) (threads s) ->
       Thread.id th = k /\ dict_get k (threads s) = Some th.
Proof.
  intros Hreach. destruct (reachable_store_wf s Hreach) as [Hnd Hall].
  split; [done|]. intros k th Hin. split.
  - rewrite Forall_forall in Hall.
    by destruct (Hall (k, th) ltac:(by apply list_elem_of_In)) as (? & _).
  - clear Hall. induction (threads s) as [|[k0 v0] d IH]; [done|].
    simpl in Hnd. apply NoDup_cons in Hnd as [Hk0 Hnd]. simpl.
    destruct Hin as [[= -> ->]|Hin].
    + by rewrite decide_True.
    + rewrite decide_False; [by apply IH|].
      intros ->. apply Hk0. apply list_elem_of_In.
      change k with (fst (k, th)). by apply in_map.
Qed.

(** X2: in every reachable state each message lies in the thread its
    [thread_id] names. *)
Theorem messages_carry_their_thread_id
    (s : SessionState) (k : str) (th : Thread.t) (m : Message.t) :
  reachable utf8_decode b64encode s ->
  dict_get k (threads s) = Some th ->
  In m (Thread.messages th) ->
  Message.thread_id m = k.
Proof.
  intros Hreach Hget Hin.
  destruct (store_wf_lookup k th _ (reachable_store_wf s Hreach) Hget)
    as (_ & Htid & _).
  rewrite Forall_forall in Htid. apply Htid. by apply list_elem_of_In.
Qed.

(** X3: in every reachable state each thread is a sequence of
    exchanges: it has an even number of messages, user messages at even
    positions and assistant messages at odd ones, and an assistant
    message has neither a parent link nor attachments. *)
Theorem threads_alternate_user_assistant
    (s : SessionState) (k : str) (th : Thread.t) :
  reachable utf8_decode b64encode s ->
  dict_get k (threads s) = Some th ->
  Nat.even (length (Thread.messages th)) = true
  /\ forall i m, Thread.messages th !! i = Some m ->
       Message.role m = (if Nat.even i then lit "user" else lit "assistant")
       /\ (Nat.even i = false ->
           Message.parent_id m = None /\ Message.attachments m = []).
Proof.
  intros Hreach Hget.
  by destruct (store_wf_lookup k th _ (reachable_store_wf s Hreach) Hget)
    as (_ & _ & Hex).
Qed.

(** X4: in every reachable state no thread has a parent: the buttons
    create threads without one, so every thread is listed as a root. *)
Theorem hierarchy_is_flat (s : SessionState) :
  reachable utf8_decode b64encode s ->
  root_threads s = threads s
  /\ forall k th, dict_get k (threads s) = Some th ->
       Thread.parent_thread_id th = None.
Proof.
  intros Hreach. pose proof (reachable_session_inv _ _ s Hreach) as Hinv.
  split; [|intros k th; by apply session_inv_parent].
  destruct Hinv as (_ & _ & Hflat). unfold root_threads.
  induction Hflat as [|it d Hit _ IH]; [done|].
  rewrite filter_cons_True by done. by rewrite IH.
Qed.
End store_invariant.

(** ** The link buttons *)

Lemma NoDup_seen_cons (x : str) (seen ids : list str) :
  NoDup (seen ++ x :: ids) <-> NoDup ((x :: seen) ++ ids).
Proof.
  simpl. split; intros H.
  - by rewrite (Permutation_middle seen ids x).
  - by rewrite <- (Permutation_middle seen ids x).
Qed.

(** The message loop raises only over a repeated id. *)
Lemma link_buttons_raise pressed seen msgs s e s' :
  link_buttons pressed seen msgs s = Raise e s' ->
  exists mid, e = StreamlitDuplicateElementKey (lit "link_" ++ mid)
              /\ ~ NoDup (seen ++ map Message.id msgs).
Proof.
  revert seen s; induction msgs as [|m msgs IH]; intros seen s; simpl; [done|].
  destruct (bool_decide (Message.id m ∈ seen)) eqn:Hseen.
  - intros [= <- <-]. exists (Message.id m). split; [done|].
    apply bool_decide_eq_true in Hseen. intros Hnd.
    apply NoDup_app in Hnd as (_ & Hdisj & _).
    apply (Hdisj _ Hseen). apply list_elem_of_here.
  - intros Hloop. destruct (IH _ _ Hloop) as (mid & -> & Hdup).
    exists mid. split; [done|]. by rewrite NoDup_seen_cons.
Qed.

(** With pairwise distinct ids the loop ends normally, and the pending
    link target is the pressed id when a message of the list has it. *)
Lemma link_buttons_nodup pressed seen msgs s :
  NoDup (seen ++ map Message.id msgs) ->
  link_buttons pressed seen msgs s
  = Done match pressed with
         | Some mid =>
             if bool_decide (mid ∈ map Message.id msgs)
             then set_link_parent (Some mid) s else s
         | None => s
         end.
Proof.
  revert seen s; induction msgs as [|m msgs IH]; intros seen s Hnd; simpl.
  { by destruct pressed. }
  assert (bool_decide (Message.id m ∈ seen) = false) as ->.
  { apply bool_decide_eq_false. intros Hin.
    apply NoDup_app in Hnd as (_ & Hdisj & _).
    apply (Hdisj _ Hin). apply list_elem_of_here. }
  rewrite IH by (by apply NoDup_seen_cons).
  destruct pressed as [mid|]; [|done].
  destruct (decide (Some mid = Some (Message.id m))) as [Heq|Hne].
  - injection Heq as Heq.
    assert (bool_decide (mid ∈ Message.id m :: map Message.id msgs) = true)
      as -> by (apply bool_decide_eq_true; rewrite Heq; apply list_elem_of_here).
    rewrite <- Heq. by destruct (bool_decide _).
  - destruct (bool_decide (mid ∈ map Message.id msgs)) eqn:Hin.
    + apply bool_decide_eq_true in Hin.
      rewrite bool_decide_true; [done|]. by apply list_elem_of_further.
    + apply bool_decide_eq_false in Hin.
      rewrite bool_decide_false; [done|].
      intros [->|H]%elem_of_cons; [by apply Hne|by apply Hin].
Qed.


(** ** Exceptions and termination of a run *)

Lemma dict_keys_contains {V} k (d : list (str * V)) :
  In k (dict_keys d) -> dict_contains k d = true.
Proof.
  intros Hin. unfold dict_contains.
  destruct (dict_get k d) eqn:Hget; [done|].
  by apply dict_get_None_keys in Hget.
Qed.

Lemma tree_children_no_crash visit thread_id items e :
  (forall t e', In t (dict_keys items) -> visit t <> Some (Crashed e')) ->
  tree_children visit thread_id items <> Some (Crashed e).
Proof.
  induction items as [|[tid t] items IH]; simpl; intros Hvisit; [done|].
  assert (tree_children visit thread_id items <> Some (Crashed e)) as Hrest.
  { apply IH. intros t0 e' Hin. apply Hvisit. by right. }
  destruct (decide _) as [Hp|Hp]; [|done].
  destruct (visit tid) as [[r|x|]|] eqn:Hv; try done.
  exfalso. by apply (Hvisit tid x); [left|].
Qed.

Lemma render_thread_tree_no_crash fuel pressed thread_id level s e :
  dict_contains thread_id (threads s) = true ->
  render_thread_tree fuel pressed thread_id level s <> Some (Crashed e).
Proof.
  revert thread_id level e.
  induction fuel as [|fuel IH]; intros thread_id level e Hin; simpl; [done|].
  unfold dict_contains in Hin.
  destruct (dict_get thread_id (threads s)) as [th|]; [|done].
  destruct (decide _) as [Hp|Hp]; [done|].
  apply tree_children_no_crash. intros t e' Ht.
  apply IH. by apply dict_keys_contains.
Qed.

Lemma render_threads_tab_no_crash fuel pressed items s e :
  (forall t, In t (dict_keys items) -> dict_contains t (threads s) = true) ->
  render_threads_tab fuel pressed items s <> Some (Crashed e).
Proof.
  induction items as [|[tid th] items IH]; simpl; intros Hkeys; [done|].
  assert (render_threads_tab fuel pressed items s <> Some (Crashed e)) as Hrest.
  { apply IH. intros t Ht. apply Hkeys. by right. }
  destruct (Thread.parent_thread_id th); [done|].
  destruct (render_thread_tree fuel pressed tid 0 s) as [[r|x|]|] eqn:Ht;
    try done.
  exfalso. apply (render_thread_tree_no_crash fuel pressed tid 0%nat s x);
    [|done].
  apply Hkeys. by left.
Qed.

Lemma render_sidebar_no_crash sb s e :
  render_sidebar sb s <> Some (Crashed e).
Proof.
  destruct sb as [|[p|]|fuel [p|]|[i|]|toggle ex]; simpl; try done.
  - rewrite render_conversations_tab_spec. by destruct (dict_contains _ _).
  - apply render_threads_tab_no_crash. intros t. apply dict_keys_contains.
  - unfold render_files_tab. by destruct (decide _).
  - by destruct toggle.
Qed.

Lemma lstrip_nil_iff (s : str) : lstrip s = [] <-> forallb isspace s = true.
Proof.
  induction s as [|c s IH]; simpl; [done|].
  destruct (isspace c); simpl; [done|]. split; intros H; discriminate H.
Qed.

Lemma lstrip_all_space (s : str) :
  forallb isspace (lstrip s) = true -> lstrip s = [].
Proof.
  induction s as [|c s IH]; simpl; [done|].
  destruct (isspace c) eqn:Hc; [done|].
  simpl. rewrite Hc. intros H; discriminate H.
Qed.

Lemma forallb_rev {A} (f : A -> bool) (l : list A) :
  forallb f (rev l) = forallb f l.
Proof.
  induction l as [|x l IH]; simpl; [done|].
  rewrite forallb_app, IH. simpl. rewrite andb_true_r. apply andb_comm.
Qed.

(** The text is blank for [strip] exactly when all its characters are
    whitespace. *)
Lemma strip_blank_iff (s : str) :
  truthy (strip s) = negb (forallb isspace s).
Proof.
  destruct (forallb isspace s) eqn:Hall; simpl.
  - apply lstrip_nil_iff in Hall. unfold strip, rstrip. by rewrite Hall.
  - destruct (strip s) as [|c t] eqn:Hs; [|done]. exfalso.
    unfold strip, rstrip in Hs.
    assert (lstrip (rev (lstrip s)) = []) as Hl.
    { destruct (lstrip (rev (lstrip s))) as [|x l]; [done|].
      simpl in Hs. by destruct (rev l). }
    apply lstrip_nil_iff in Hl. rewrite forallb_rev in Hl.
    apply lstrip_all_space, lstrip_nil_iff in Hl. congruence.
Qed.

Section run_properties.
Variable utf8_decode : list N -> option str.
Variable b64encode : list N -> str.

Lemma attach_error uploaded s e :
  attach utf8_decode b64encode uploaded s = Err e ->
  e = UnicodeDecodeError
  /\ exists f, uploaded = Some f
       /\ startswith (uf_type f) (lit "text/") = true
       /\ utf8_decode (uf_value f) = None.
Proof.
  unfold attach, process_uploaded_file. destruct uploaded as [f|]; [|done].
  destruct (startswith (uf_type f) (lit "text/")) eqn:Htext.
  - destruct (utf8_decode (uf_value f)) eqn:Hdec; [done|].
    intros [= <-]. split; [done|]. by exists f.
  - by destruct (startswith (uf_type f) (lit "image/")).
Qed.

(** X5: a run from a reachable state never ends in a [KeyError]. It can
    raise in two ways only: [UnicodeDecodeError], in a send whose uploaded
    text file does not decode, and [StreamlitDuplicateElementKey], in the
    message loop of a current thread in which two messages have the same
    id. Either way no thread, no current thread and no file list has
    changed. *)
Theorem run_exceptions_leave_store_untouched
    (r : Run) (s s' : SessionState) (e : exn) :
  reachable utf8_decode b64encode s ->
  main utf8_decode b64encode r s = Some (Raise e s') ->
  ((e = UnicodeDecodeError
    /\ exists f, uploaded_file (input_area (chat r)) = Some f
         /\ startswith (uf_type f) (lit "text/") = true
         /\ utf8_decode (uf_value f) = None)
   \/ (exists th mid,
         dict_get (current_thread s) (threads s) = Some th
         /\ e = StreamlitDuplicateElementKey (lit "link_" ++ mid)
         /\ ~ NoDup (map Message.id (Thread.messages th))))
  /\ threads s' = threads s
  /\ current_thread s' = current_thread s
  /\ uploaded_files s' = uploaded_files s.
Proof.
  intros _. unfold main.
  destruct (render_sidebar (sidebar r) s) as [[r0|x|]|] eqn:Hsb; try done.
  { exfalso. by eapply render_sidebar_no_crash. }
  intros [= Hrun]. revert Hrun. unfold render_chat_interface.
  destruct (dict_get (current_thread s) (threads s)) as [th|] eqn:Hget; [|done].
  destruct (header_new_thread (chat r)); [done|].
  destruct (link_buttons_frame (link_pressed (chat r)) [] (Thread.messages th) s)
    as (Hth & Hcur & Hup).
  destruct (link_buttons _ _ _ s) as [s1|x s1] eqn:Hloop; simpl in Hth, Hcur, Hup.
  2:{ intros [= <- <-]. split; [|done]. right.
      destruct (link_buttons_raise _ _ _ _ _ _ Hloop) as (mid & -> & Hdup).
      by exists th, mid. }
  unfold render_input_area.
  destruct (send_clicked _ && truthy _).
  { destruct (attach _ _ _ s1) as [[atts s2]|x] eqn:Hatt; [done|].
    intros [= <- <-]. split; [|done]. left.
    by destruct (attach_error _ _ _ Hatt) as (-> & Hf). }
  destruct (new_thread_clicked _); [done|].
  destruct (clear_clicked _); [|done].
  by rewrite Hcur, Hth, Hget.
Qed.

(** X6: from a reachable state every run returns, the walk of the thread
    tree needing a single unit of recursion depth. *)
Theorem script_run_terminates
    (sb : Sidebar) (w : ChatWidgets) (ck : Clocks) (s : SessionState) :
  reachable utf8_decode b64encode s ->
  (forall fuel p, sb = NestedThreads fuel p -> (0 < fuel)%nat) ->
  exists o, main utf8_decode b64encode (mk_run sb w ck) s = Some o
            /\ reachable utf8_decode b64encode (final_state o).
Proof.
  intros Hreach Hfuel.
  destruct (main_total utf8_decode b64encode sb w ck s Hreach Hfuel) as [o Ho].
  exists o. split; [done|]. by eapply reachable_run.
Qed.

(** X7: with only the send button pressed, the run leaves the session
    as it is exactly when every character of the text is whitespace
    (the empty text included). *)
Theorem send_is_ignored_iff_all_whitespace
    (iw : InputArea) (ck : Clocks) (s : SessionState) :
  send_clicked iw = true ->
  new_thread_clicked iw = false ->
  clear_clicked iw = false ->
  forallb isspace (message_input iw) = true
  <-> render_input_area utf8_decode b64encode iw ck s = Done s.
Proof.
  intros Hsend Hnew Hclear. unfold render_input_area.
  rewrite Hsend, Hnew, Hclear, strip_blank_iff. simpl.
  destruct (forallb isspace (message_input iw)); simpl; [done|].
  split; [done|].
  destruct (attach _ _ _ s) as [[atts s1]|e] eqn:Hatt; [|done].
  destruct (attach_frame _ _ _ _ _ _ Hatt) as (Hth & Hcur & _).
  intros [= Hs]. apply (f_equal (messages_of (current_thread s))) in Hs.
  change (messages_of (current_thread s) (set_link_parent None ?x))
    with (messages_of (current_thread s) x) in Hs.
  pose proof (add_message_messages (clk_user ck) (message_input iw)
                (lit "user") None atts (link_parent s1) s1) as H2.
  set (s2 := add_message (clk_user ck) _ _ None atts _ s1) in *.
  pose proof (add_message_messages (clk_assistant ck)
                (assistant_response (message_input iw) atts)
                (lit "assistant") None [] None s2) as H3.
  destruct (add_message_frame (clk_user ck) (message_input iw) (lit "user")
              None atts (link_parent s1) s1) as (Hcur2 & _ & _).
  fold s2 in Hcur2. simpl in H2, H3.
  rewrite Hcur2, Hcur in H3. rewrite Hcur in H2.
  rewrite H3, H2, (messages_of_threads _ s s1 Hth) in Hs.
  apply (f_equal length) in Hs. rewrite !length_app in Hs. simpl in Hs. lia.
Qed.
End run_properties.

(** ** Sending, linking and attachments *)

Section send_properties.
Variable utf8_decode : list N -> option str.
Variable b64encode : list N -> str.

Lemma attach_ok_state uploaded s atts s1 :
  attach utf8_decode b64encode uploaded s = Ok (atts, s1) ->
  s1 = set_uploaded_files (uploaded_files s ++ atts) s
  /\ match uploaded with
     | None => atts = []
     | Some f => exists fd, process_uploaded_file utf8_decode b64encode f = Ok fd
                            /\ atts = [fd]
     end.
Proof.
  unfold attach. destruct uploaded as [f|].
  - destruct (process_uploaded_file _ _ f) as [fd|]; [|done].
    intros [= <- <-]. split; [done|]. by exists fd.
  - intros [= <- <-]. rewrite app_nil_r. by destruct s.
Qed.

(** The state a successful send leaves behind. *)
Lemma send_result iw ck s atts s1 :
  send_clicked iw = true ->
  truthy (strip (message_input iw)) = true ->
  attach utf8_decode b64encode (uploaded_file iw) s = Ok (atts, s1) ->
  render_input_area utf8_decode b64encode iw ck s
  = Done
      (mk_state
         (dict_set (current_thread s)
            (Thread.append
               (new_message (clk_assistant ck)
                  (assistant_response (message_input iw) atts)
                  (lit "assistant") (current_thread s) [] None)
               match dict_get (current_thread s) (threads s) with
               | Some th =>
                   Thread.append
                     (new_message (clk_user ck) (message_input iw) (lit "user")
                        (current_thread s) atts (link_parent s)) th
               | None =>
                   Thread.mk (current_thread s) (default_thread_name s)
                     [new_message (clk_user ck) (message_input iw) (lit "user")
                        (current_thread s) atts (link_parent s)]
                     None (now_post_init (clk_user ck))
               end)
            (threads s))
         (current_thread s) (uploaded_files s ++ atts) None).
Proof.
  intros Hsend Htext Hatt.
  rewrite (send_unfold _ _ _ _ _ _ _ Hsend Htext Hatt).
  destruct (attach_ok_state _ _ _ _ Hatt) as [-> _].
  unfold set_link_parent. rewrite send_threads.
  rewrite (add_message_unfold (clk_assistant ck)).
  by rewrite (add_message_unfold (clk_user ck)).
Qed.

(** X8: a send with an uploaded file that was read puts that one file,
    under its name, size and type, on the user message and at the end of
    the session's file list, and the reply names it after the echo. *)
Theorem send_with_file_attaches_it
    (iw : InputArea) (ck : Clocks) (s : SessionState)
    (f : UploadedFile) (fd : FileDetails) :
  send_clicked iw = true ->
  truthy (strip (message_input iw)) = true ->
  uploaded_file iw = Some f ->
  process_uploaded_file utf8_decode b64encode f = Ok fd ->
  exists s' u a,
    render_input_area utf8_decode b64encode iw ck s = Done s'
    /\ messages_of (current_thread s) s'
       = messages_of (current_thread s) s ++ [u; a]
    /\ Message.attachments u = [fd]
    /\ fd_name fd = uf_name f /\ fd_size fd = uf_size f
    /\ fd_type fd = uf_type f
    /\ uploaded_files s' = uploaded_files s ++ [fd]
    /\ Message.content a
       = echo_reply (message_input iw)
         ++ [10; 10]%N ++ lit "I also received 1 file(s): " ++ uf_name f.
Proof.
  intros Hsend Htext Hup Hproc.
  assert (attach utf8_decode b64encode (uploaded_file iw) s
          = Ok ([fd], set_uploaded_files (uploaded_files s ++ [fd]) s)) as Hatt.
  { unfold attach. by rewrite Hup, Hproc. }
  rewrite (send_result _ _ _ _ _ Hsend Htext Hatt).
  eexists _,
    (new_message (clk_user ck) (message_input iw) (lit "user")
                 (current_thread s) [fd] (link_parent s)),
    (new_message (clk_assistant ck)
                 (assistant_response (message_input iw) [fd])
                 (lit "assistant") (current_thread s) [] None).
  split; [done|].
  split.
  { unfold messages_of at 1. simpl. rewrite dict_get_set_eq.
    unfold messages_of.
    destruct (dict_get (current_thread s) (threads s)); simpl; [|done].
    by rewrite <- app_assoc. }
  split; [done|].
  assert (fd_name fd = uf_name f /\ fd_size fd = uf_size f
          /\ fd_type fd = uf_type f) as (Hn & Hs & Ht).
  { revert Hproc. unfold process_uploaded_file.
    destruct (startswith (uf_type f) (lit "text/")).
    - destruct (utf8_decode (uf_value f)); [|done]. by intros [= <-].
    - destruct (startswith (uf_type f) (lit "image/")); by intros [= <-]. }
  repeat (split; [done|]).
  unfold new_message; cbn [Message.content].
  rewrite assistant_response_echo, <- Hn. reflexivity.
Qed.

(** X9: a send whose uploaded text file does not decode raises
    [UnicodeDecodeError] before anything is stored: no message is
    appended, the file is not recorded and a pending link target stays. *)
Theorem send_with_undecodable_file_raises
    (iw : InputArea) (ck : Clocks) (s : SessionState) (f : UploadedFile) :
  send_clicked iw = true ->
  truthy (strip (message_input iw)) = true ->
  uploaded_file iw = Some f ->
  startswith (uf_type f) (lit "text/") = true ->
  utf8_decode (uf_value f) = None ->
  render_input_area utf8_decode b64encode iw ck s = Raise UnicodeDecodeError s.
Proof.
  intros Hsend Htext Hup Htype Hdec.
  unfold render_input_area, attach, process_uploaded_file.
  by rewrite Hsend, Htext, Hup, Htype, Hdec.
Qed.

(** X10: the two messages of a send have the same id exactly when both
    were created within the same millisecond. *)
Theorem send_message_ids_collide_iff_same_ms
    (iw : InputArea) (ck : Clocks) (s : SessionState)
    (atts : list FileDetails) (s1 : SessionState) :
  send_clicked iw = true ->
  truthy (strip (message_input iw)) = true ->
  attach utf8_decode b64encode (uploaded_file iw) s = Ok (atts, s1) ->
  exists s' u a,
    render_input_area utf8_decode b64encode iw ck s = Done s'
    /\ messages_of (current_thread s) s'
       = messages_of (current_thread s) s ++ [u; a]
    /\ (Message.id u = Message.id a
        <-> time_ms (clk_user ck) = time_ms (clk_assistant ck)).
Proof.
  intros Hsend Htext Hatt.
  rewrite (send_result _ _ _ _ _ Hsend Htext Hatt).
  eexists _,
    (new_message (clk_user ck) (message_input iw) (lit "user")
                 (current_thread s) atts (link_parent s)),
    (new_message (clk_assistant ck)
                 (assistant_response (message_input iw) atts)
                 (lit "assistant") (current_thread s) [] None).
  split; [done|]. split.
  { unfold messages_of at 1. simpl. rewrite dict_get_set_eq.
    unfold messages_of.
    destruct (dict_get (current_thread s) (threads s)); simpl; [|done].
    by rewrite <- app_assoc. }
  unfold new_message; cbn [Message.id]. split.
  - intros H. apply app_inv_head in H. by apply str_of_int_inj.
  - by intros ->.
Qed.
End send_properties.

Lemma total_messages_set_present k th old (d : list (str * Thread.t)) :
  dict_get k d = Some old ->
  (sum_list_with (fun it => length (Thread.messages it.2)) (dict_set k th d)
   + length (Thread.messages old)
   = sum_list_with (fun it => length (Thread.messages it.2)) d
     + length (Thread.messages th))%nat
  /\ length (dict_set k th d) = length d.
Proof.
  induction d as [|[k0 v0] d IH]; simpl; [done|].
  destruct (decide (k0 = k)) as [->|Hne]; simpl.
  - intros [= ->]. split; lia.
  - intros Hget. destruct (IH Hget) as [Hsum Hlen]. split; lia.
Qed.

Section chat_properties.
Variable utf8_decode : list N -> option str.
Variable b64encode : list N -> str.

(** X11: in a current thread whose messages have pairwise distinct ids,
    pressing the link button of one of its messages stores that id as the
    pending link target and changes nothing else. *)
Theorem link_button_sets_pending_target
    (mid : str) (ck : Clocks) (s : SessionState) (th : Thread.t) :
  dict_get (current_thread s) (threads s) = Some th ->
  NoDup (map Message.id (Thread.messages th)) ->
  mid ∈ map Message.id (Thread.messages th) ->
  render_chat_interface utf8_decode b64encode
    (mk_chat_widgets false (Some mid) (input_area idle_chat)) ck s
  = Done (mk_state (threads s) (current_thread s) (uploaded_files s)
                   (Some mid)).
Proof.
  intros Hget Hnd Hmid. unfold render_chat_interface. rewrite Hget. simpl.
  rewrite link_buttons_nodup by done.
  by rewrite bool_decide_true.
Qed.

(** X12: in a current thread whose messages have pairwise distinct ids,
    a message chosen with its link button becomes the parent of the next
    message sent: the user message of that send carries the id as
    [parent_id], the assistant message carries none, and the pending
    target is gone afterwards. *)
Theorem link_then_send_sets_parent
    (mid text : str) (ck1 ck2 : Clocks) (s : SessionState) (th : Thread.t) :
  dict_get (current_thread s) (threads s) = Some th ->
  NoDup (map Message.id (Thread.messages th)) ->
  mid ∈ map Message.id (Thread.messages th) ->
  truthy (strip text) = true ->
  exists s1 s2 u a,
    render_chat_interface utf8_decode b64encode
      (mk_chat_widgets false (Some mid) (input_area idle_chat)) ck1 s = Done s1
    /\ render_chat_interface utf8_decode b64encode
         (mk_chat_widgets false None (send_of text)) ck2 s1 = Done s2
    /\ messages_of (current_thread s) s2 = Thread.messages th ++ [u; a]
    /\ Message.content u = text
    /\ Message.parent_id u = Some mid
    /\ Message.parent_id a = None
    /\ link_parent s2 = None.
Proof.
  intros Hget Hnd Hmid Htext.
  exists (set_link_parent (Some mid) s).
  eexists _,
    (new_message (clk_user ck2) text (lit "user") (current_thread s) []
                 (Some mid)),
    (new_message (clk_assistant ck2) (assistant_response text [])
                 (lit "assistant") (current_thread s) [] None).
  split.
  { unfold render_chat_interface. rewrite Hget. simpl.
    rewrite link_buttons_nodup by done. by rewrite bool_decide_true. }
  split.
  { unfold render_chat_interface. simpl. rewrite Hget. simpl.
    rewrite link_buttons_nodup by done.
    apply (send_result utf8_decode b64encode (send_of text) ck2
             (set_link_parent (Some mid) s) []
             (set_link_parent (Some mid) s)); [done|done|].
    simpl. by destruct s. }
  split.
  { unfold messages_of. simpl. rewrite dict_get_set_eq, Hget. simpl.
    by rewrite <- app_assoc. }
  done.
Qed.

(** X13: "New Thread" in the header opens an empty thread without a
    parent, named after the number of threads, and makes it current; the
    threads stored under other ids and a pending link target are kept. The
    button of the input area does the same whenever the run gets there,
    that is, when the messages of the current thread have pairwise
    distinct ids. *)
Theorem new_thread_button_opens_empty_thread
    (lp : option str) (ia : InputArea) (uf : option UploadedFile)
    (text : str) (lb cc : bool) (ck : Clocks) (s : SessionState)
    (th : Thread.t) :
  dict_get (current_thread s) (threads s) = Some th ->
  let new_id := lit "thread_" ++ str_of_int (time_ms (clk_thread ck)) in
  exists s',
    render_chat_interface utf8_decode b64encode
      (mk_chat_widgets true lp ia) ck s = Done s'
    /\ (NoDup (map Message.id (Thread.messages th)) ->
        render_chat_interface utf8_decode b64encode
          (mk_chat_widgets false None (mk_input_area uf text false true lb cc))
          ck s = Done s')
    /\ current_thread s' = new_id
    /\ dict_get new_id (threads s')
       = Some (Thread.mk new_id
                 (lit "Thread " ++ str_of_int (Z.of_nat (length (threads s)) + 1))
                 [] None (now_post_init (clk_thread ck)))
    /\ link_parent s' = link_parent s
    /\ (forall k, k <> new_id ->
          dict_get k (threads s') = dict_get k (threads s)).
Proof.
  intros Hget new_id. eexists. split.
  { unfold render_chat_interface. rewrite Hget. simpl. reflexivity. }
  split.
  { intros Hnd. unfold render_chat_interface. rewrite Hget. simpl.
    by rewrite link_buttons_nodup by done. }
  simpl. split; [done|]. split; [by rewrite dict_get_set_eq|].
  split; [done|]. intros k Hk. by rewrite dict_get_set_ne.
Qed.


(** X15: a send in a session whose current thread is in the store adds
    exactly two to the "Total Messages" metric of the home tab and leaves
    "Active Threads" as it is. *)
Theorem home_metrics_after_send
    (iw : InputArea) (ck : Clocks) (s : SessionState)
    (atts : list FileDetails) (s1 : SessionState) (th : Thread.t) :
  send_clicked iw = true ->
  truthy (strip (message_input iw)) = true ->
  attach utf8_decode b64encode (uploaded_file iw) s = Ok (atts, s1) ->
  dict_get (current_thread s) (threads s) = Some th ->
  exists s',
    render_input_area utf8_decode b64encode iw ck s = Done s'
    /\ render_home_tab s'
       = (total_messages s + 2, length (threads s))%nat.
Proof.
  intros Hsend Htext Hatt Hget.
  rewrite (send_result _ _ _ _ _ _ _ Hsend Htext Hatt).
  eexists; split; [done|]. unfold render_home_tab, total_messages. simpl.
  rewrite Hget.
  match goal with |- context [dict_set _ ?t _] =>
    destruct (total_messages_set_present (current_thread s) t th (threads s) Hget)
      as [Hsum Hlen]
  end.
  simpl in Hsum. rewrite !length_app in Hsum. simpl in Hsum.
  rewrite Hlen. f_equal. lia.
Qed.

(** X16: clearing takes the messages of the current thread, and only
    those, off the "Total Messages" metric; "Active Threads" stays. *)
Theorem home_metrics_after_clear
    (iw : InputArea) (ck : Clocks) (s : SessionState) (th : Thread.t) :
  send_clicked iw && truthy (strip (message_input iw)) = false ->
  new_thread_clicked iw = false ->
  clear_clicked iw = true ->
  dict_get (current_thread s) (threads s) = Some th ->
  exists s',
    render_input_area utf8_decode b64encode iw ck s = Done s'
    /\ render_home_tab s'
       = (total_messages s - length (Thread.messages th), length (threads s))%nat
    /\ (length (Thread.messages th) <= total_messages s)%nat.
Proof.
  intros Hsend Hnew Hclear Hget. unfold render_input_area.
  rewrite Hsend, Hnew, Hclear, Hget.
  eexists; split; [done|]. unfold render_home_tab, total_messages. simpl.
  destruct (total_messages_set_present (current_thread s) (Thread.clear th) th
              (threads s) Hget) as [Hsum Hlen].
  simpl in Hsum. rewrite Hlen. split; [f_equal|]; lia.
Qed.
End chat_properties.

(** X14: [create_new_thread] returns ["thread_"] followed by the clock
    reading. When that id is new, the empty thread goes to the end of the
    store; when the store already has it, the stored thread is replaced by
    the empty one (its messages are dropped) and the store keeps its size.
    The parent is the current thread exactly when a non-empty
    [parent_message_id] is given; the current thread is not switched. *)
Theorem create_new_thread_adds_or_replaces
    (clk : Clock) (parent_message_id : option str) (s : SessionState) :
  let new_id := lit "thread_" ++ str_of_int (time_ms clk) in
  let new_thread :=
    Thread.mk new_id
      (lit "Thread " ++ str_of_int (Z.of_nat (length (threads s)) + 1)) []
      (match parent_message_id with
       | Some (_ :: _) => Some (current_thread s)
       | _ => None
       end)
      (now_post_init clk) in
  let s' := (create_new_thread clk parent_message_id s).2 in
  (create_new_thread clk parent_message_id s).1 = new_id
  /\ dict_get new_id (threads s') = Some new_thread
  /\ match dict_get new_id (threads s) with
     | None => threads s' = threads s ++ [(new_id, new_thread)]
     | Some old =>
         dict_keys (threads s') = dict_keys (threads s)
         /\ length (threads s') = length (threads s)
     end
  /\ (forall k, k <> new_id -> dict_get k (threads s') = dict_get k (threads s))
  /\ current_thread s' = current_thread s
  /\ link_parent s' = link_parent s.
Proof.
  intros new_id new_thread s'. subst s'. unfold create_new_thread. simpl.
  assert (match parent_message_id with
          | Some p => if truthy p then Some (current_thread s) else None
          | None => None
          end
          = match parent_message_id with
            | Some (_ :: _) => Some (current_thread s)
            | _ => None
            end) as -> by (by destruct parent_message_id as [[|c p]|]).
  fold new_id. unfold default_thread_name. fold new_thread.
  split; [done|]. split; [by rewrite dict_get_set_eq|].
  split.
  { destruct (dict_get new_id (threads s)) as [old|] eqn:Hget.
    - split; [by eapply dict_set_present_keys|].
      by destruct (total_messages_set_present new_id new_thread old _ Hget).
    - by rewrite dict_set_absent. }
  split; [|done]. intros k Hk. by rewrite dict_get_set_ne.
Qed.

(** ** Sidebar tabs *)

Lemma dict_contains_keys {V} k (d : list (str * V)) :
  dict_contains k d = true <-> In k (dict_keys d).
Proof.
  split; [|apply dict_keys_contains].
  unfold dict_contains. intros H.
  destruct (dict_get k d) as [v|] eqn:Hget; [|done].
  apply dict_get_Some_In in Hget.
  change k with (fst (k, v)). by apply in_map.
Qed.

Lemma render_threads_tab_flat fuel tid level items s :
  Forall (fun it => Thread.parent_thread_id it.2 = None) (threads s) ->
  Forall (fun it => Thread.parent_thread_id it.2 = None) items ->
  (forall k, In k (dict_keys items) -> dict_contains k (threads s) = true) ->
  render_threads_tab (S fuel) (tid, level) items s
  = Some (if (level =? 0)%nat && dict_contains tid items
          then Fired (set_current_thread tid s) else Idle).
Proof.
  intros Hflat Hitems. induction Hitems as [|[k th] items Hk _ IH];
    intros Hkeys; [by rewrite andb_false_r|].
  cbn [render_threads_tab]. simpl in Hk. rewrite Hk.
  cbn [render_thread_tree].
  pose proof (Hkeys k ltac:(by left)) as Hin. unfold dict_contains in Hin.
  destruct (dict_get k (threads s)) as [v|]; [|done].
  unfold dict_contains at 1. simpl.
  destruct (decide ((tid, level) = (k, 0%nat))) as [[= -> ->]|Hne].
  - by rewrite decide_True.
  - rewrite tree_children_flat by done.
    rewrite IH by (intros k0 Hk0; apply Hkeys; by right).
    destruct (decide (k = tid)) as [->|Hkt]; [|done].
    destruct level as [|n]; [done|]. done.
Qed.

Section sidebar_properties.
Variable utf8_decode : list N -> option str.
Variable b64encode : list N -> str.

(** X17: in a reachable state the tree tab shows every thread of the
    store at the top level, and pressing the button of one makes it the
    current thread and changes nothing else, whatever recursion depth
    above zero is allowed and whatever the widgets of the chat area hold
    (the run ends at the button). *)
Theorem tree_button_switches_thread
    (fuel : nat) (tid : str) (w : ChatWidgets) (ck : Clocks)
    (s : SessionState) :
  reachable utf8_decode b64encode s ->
  dict_contains tid (threads s) = true ->
  main utf8_decode b64encode
    (mk_run (NestedThreads (S fuel) (Some (tid, 0%nat))) w ck) s
  = Some (Done (mk_state (threads s) tid (uploaded_files s) (link_parent s))).
Proof.
  intros Hreach Htid.
  destruct (reachable_session_inv _ _ s Hreach) as (_ & _ & Hflat).
  unfold main. cbn [sidebar render_sidebar].
  rewrite render_threads_tab_flat;
    [|done|done|intros k; apply dict_keys_contains].
  by rewrite Htid.
Qed.

(** X24: pressing, in the conversations tab, the button of a thread of
    the store makes it the current thread and changes nothing else,
    whatever the widgets of the chat area hold (the run ends at the
    button). *)
Theorem conversation_button_switches_to_stored_thread
    (tid : str) (w : ChatWidgets) (ck : Clocks) (s : SessionState) :
  dict_contains tid (threads s) = true ->
  main utf8_decode b64encode (mk_run (Conversations (Some tid)) w ck) s
  = Some (Done (mk_state (threads s) tid (uploaded_files s) (link_parent s))).
Proof.
  intros Htid. unfold main. cbn [sidebar render_sidebar].
  by rewrite render_conversations_tab_spec, Htid.
Qed.

(** X18: "Remove" on a listed file takes exactly that entry out of the
    session's file list, the later entries moving up by one; the threads,
    and with them the attachments of the messages already sent, are not
    touched, and the rest of the run is skipped. *)
Theorem remove_file_keeps_messages
    (i : nat) (w : ChatWidgets) (ck : Clocks) (s : SessionState) :
  (i < length (uploaded_files s))%nat ->
  exists s',
    main utf8_decode b64encode (mk_run (Files (Some i)) w ck) s = Some (Done s')
    /\ S (length (uploaded_files s')) = length (uploaded_files s)
    /\ (forall j, (j < i)%nat -> uploaded_files s' !! j = uploaded_files s !! j)
    /\ (forall j, (i <= j)%nat ->
          uploaded_files s' !! j = uploaded_files s !! S j)
    /\ threads s' = threads s
    /\ current_thread s' = current_thread s
    /\ link_parent s' = link_parent s.
Proof.
  intros Hi. unfold main. cbn [sidebar render_sidebar].
  unfold render_files_tab. rewrite decide_True by done.
  eexists; split; [done|]. simpl.
  split.
  { rewrite length_delete by (by apply lookup_lt_is_Some_2). lia. }
  split; [intros j Hj; by apply list_lookup_delete_lt|].
  split; [intros j Hj; by apply list_lookup_delete_ge|].
  done.
Qed.
End sidebar_properties.

(** ** Themes, previews and initialization *)

(** X19: toggling the theme twice gives back ["light"] or ["dark"]
    unchanged; any other stored value is taken for dark, so that a toggle
    always yields one of the two themes. *)
Theorem toggle_theme_twice (theme : str) :
  toggle_theme (toggle_theme theme)
  = (if bool_decide (theme = lit "light" \/ theme = lit "dark")
     then theme else lit "dark")
  /\ (toggle_theme theme = lit "light" \/ toggle_theme theme = lit "dark").
Proof.
  unfold toggle_theme.
  destruct (decide (theme = lit "light")) as [->|Hl].
  - split; [|by right]. rewrite decide_False by done.
    by rewrite bool_decide_true by (by left).
  - split; [|by left]. rewrite decide_True by done.
    destruct (decide (theme = lit "dark")) as [->|Hd].
    + by rewrite bool_decide_true by (by right).
    + by rewrite bool_decide_false by (by intros [?|?]).
Qed.

(** X21: [initialize_session_state] never overwrites an attribute that
    is set, so a second call changes nothing; on a session without
    attributes it builds the store with the single thread ["main"], makes
    it current, and starts with the light theme and no files. *)
Theorem initialize_keeps_what_is_set (c1 c2 : datetime) (a : Attrs) :
  initialize_attrs c2 (initialize_attrs c1 a) = initialize_attrs c1 a
  /\ (forall m, a_messages a = Some m ->
        a_messages (initialize_attrs c1 a) = Some m)
  /\ (forall d, a_threads a = Some d ->
        a_threads (initialize_attrs c1 a) = Some d)
  /\ (forall t, a_current_thread a = Some t ->
        a_current_thread (initialize_attrs c1 a) = Some t)
  /\ (forall u, a_uploaded_files a = Some u ->
        a_uploaded_files (initialize_attrs c1 a) = Some u)
  /\ (forall t, a_theme a = Some t -> a_theme (initialize_attrs c1 a) = Some t)
  /\ initialize_attrs c1 (mk_attrs None None None None None)
     = mk_attrs (Some []) (Some (threads (initialize_session_state c1)))
                (Some (current_thread (initialize_session_state c1)))
                (Some (lit "light")) (Some []).
Proof.
  split.
  { destruct a as [[m|] [d|] [c|] [t|] [u|]]; reflexivity. }
  repeat split; intros x Hx; unfold initialize_attrs; simpl; by rewrite Hx.
Qed.

Lemma text_type_is_not_image (t : str) :
  startswith t (lit "text/") = true -> startswith t (lit "image/") = false.
Proof.
  change (lit "text/") with (116%N :: lit "ext/").
  change (lit "image/") with (105%N :: lit "mage/").
  destruct t as [|a l]; [done|]. cbn [startswith].
  destruct (N.eqb_spec 116 a) as [<-|]; [|done]. done.
Qed.

Section file_properties.
Variable utf8_decode : list N -> option str.
Variable b64encode : list N -> str.

(** X22: [process_uploaded_file] keeps name, size and type; the content
    is missing exactly for a type that is neither [text/...] nor
    [image/...]; and it raises, with [UnicodeDecodeError], exactly for a
    text type whose bytes do not decode. *)
Theorem process_uploaded_file_contract (f : UploadedFile) :
  match process_uploaded_file utf8_decode b64encode f with
  | Ok fd =>
      fd_name fd = uf_name f /\ fd_size fd = uf_size f
      /\ fd_type fd = uf_type f
      /\ (fd_content fd = None
          <-> startswith (uf_type f) (lit "text/") = false
              /\ startswith (uf_type f) (lit "image/") = false)
      /\ (startswith (uf_type f) (lit "text/") = true ->
          utf8_decode (uf_value f) = fd_content fd)
  | Err e =>
      e = UnicodeDecodeError
      /\ startswith (uf_type f) (lit "text/") = true
      /\ utf8_decode (uf_value f) = None
  end.
Proof.
  unfold process_uploaded_file.
  destruct (startswith (uf_type f) (lit "text/")) eqn:Htext.
  - destruct (utf8_decode (uf_value f)) as [c|]; [|done].
    simpl. do 3 (split; [done|]). split; [|done].
    split; [done|]. by intros [? _].
  - destruct (startswith (uf_type f) (lit "image/")) eqn:Himg; simpl.
    + do 3 (split; [done|]). split; [|done]. split; [done|]. by intros [_ ?].
    + do 3 (split; [done|]). split; [|done]. by split.
Qed.

(** X20: the preview of a file that [process_uploaded_file] read. A text
    file with content is shown as code, whole when it has at most 500
    characters and otherwise as its first 500 characters followed by
    [...]; an image is shown through a data URI of its base64 text; any
    other file, and a text file that decodes to the empty string, only
    shows its type. *)
Theorem preview_of_processed_file (f : UploadedFile) (fd : FileDetails) :
  process_uploaded_file utf8_decode b64encode f = Ok fd ->
  match (display_file_preview fd).2 with
  | Code t =>
      startswith (uf_type f) (lit "text/") = true
      /\ exists c, utf8_decode (uf_value f) = Some c /\ c <> []
           /\ (length t <= 503)%nat
           /\ t = (if decide (length c <= 500)%nat then c
                   else take 500 c ++ lit "...")
  | Image uri =>
      startswith (uf_type f) (lit "text/") = false
      /\ startswith (uf_type f) (lit "image/") = true
      /\ uri = lit "data:" ++ uf_type f ++ lit ";base64,"
               ++ b64encode (uf_value f)
  | Info t =>
      t = lit "File type: " ++ uf_type f
      /\ (startswith (uf_type f) (lit "image/") = false
          \/ startswith (uf_type f) (lit "text/") = true)
      /\ (startswith (uf_type f) (lit "text/") = true ->
          utf8_decode (uf_value f) = Some [])
  end.
Proof.
  unfold process_uploaded_file, display_file_preview.
  destruct (startswith (uf_type f) (lit "text/")) eqn:Htext.
  - destruct (utf8_decode (uf_value f)) as [c|] eqn:Hdec; [|done].
    intros [= <-]. cbn [fd_content fd_type snd]. rewrite Htext.
    destruct c as [|x c]; cbn [truthy andb].
    + destruct (startswith (uf_type f) (lit "image/")) eqn:Himg.
      * by rewrite (text_type_is_not_image _ Htext) in Himg.
      * split; [done|]. split; [by right|]. done.
    + split; [done|]. exists (x :: c). split; [done|]. split; [done|].
      destruct (decide (length (x :: c) <= 500)%nat) as [Hle|Hgt].
      * assert ((500 <? length (x :: c))%nat = false) as ->
          by (apply Nat.ltb_ge; lia).
        split; [lia|done].
      * assert ((500 <? length (x :: c))%nat = true) as ->
          by (apply Nat.ltb_lt; lia).
        split; [|done]. rewrite length_app, length_take.
        change (length (lit "...")) with 3%nat. lia.
  - destruct (startswith (uf_type f) (lit "image/")) eqn:Himg;
      intros [= <-]; cbn [fd_content fd_type snd]; rewrite ?Htext, ?Himg.
    + cbn [andb]. done.
    + cbn [andb]. split; [done|]. split; [by left|done].
Qed.
End file_properties.

(** ** The export determines the conversation *)

Lemma map_eq_inj_Forall {A B} (f : A -> B) (P : A -> Prop) (l1 l2 : list A) :
  (forall x y, P x -> P y -> f x = f y -> x = y) ->
  Forall P l1 -> Forall P l2 -> map f l1 = map f l2 -> l1 = l2.
Proof.
  intros Hinj H1. revert l2.
  induction H1 as [|x l1 Hx _ IH]; intros [|y l2] H2 Heq; try done.
  apply Forall_cons in H2 as [Hy H2]. simpl in Heq.
  injection Heq as Hxy Hrest. f_equal; [by apply Hinj|by apply IH].
Qed.

Lemma pyopt_inj (a b : option str) :
  json_dumps (pyopt a) = json_dumps (pyopt b) -> a = b.
Proof. destruct a, b; simpl; congruence. Qed.

Lemma json_file_inj (f1 f2 : FileDetails) :
  json_dumps (asdict_file f1) = json_dumps (asdict_file f2) -> f1 = f2.
Proof.
  destruct f1 as [n1 s1 t1 c1], f2 as [n2 s2 t2 c2].
  cbn [asdict_file json_dumps map fst snd fd_name fd_size fd_type fd_content].
  intros H. injection H as Hn Hs Ht Hc.
  apply pyopt_inj in Hc. by subst.
Qed.

Lemma json_message_inj (m1 m2 : Message.t) :
  valid_datetime (Message.timestamp m1) ->
  valid_datetime (Message.timestamp m2) ->
  json_dumps (asdict_message m1) = json_dumps (asdict_message m2) -> m1 = m2.
Proof.
  destruct m1 as [i1 c1 r1 t1 p1 th1 a1], m2 as [i2 c2 r2 t2 p2 th2 a2].
  cbn [Message.timestamp]. intros Hv1 Hv2.
  cbn [asdict_message json_dumps map fst snd Message.id Message.content
       Message.role Message.timestamp Message.parent_id Message.thread_id
       Message.attachments].
  remember (datetime_str t1) as d1 eqn:E1.
  remember (datetime_str t2) as d2 eqn:E2.
  intros H. injection H as Hi Hc Hr Ht Hp Hth Ha.
  rewrite E1, E2 in Ht.
  apply pyopt_inj in Hp. apply datetime_str_inj in Ht; [|done..].
  rewrite !map_map in Ha.
  apply (map_eq_inj_Forall _ (fun _ => True)) in Ha;
    [|intros x y _ _; apply json_file_inj|by apply Forall_true..].
  by subst.
Qed.

Lemma json_thread_inj (th1 th2 : Thread.t) :
  valid_thread th1 -> valid_thread th2 ->
  json_dumps (asdict_thread th1) = json_dumps (asdict_thread th2) -> th1 = th2.
Proof.
  destruct th1 as [i1 n1 m1 p1 c1], th2 as [i2 n2 m2 p2 c2].
  unfold valid_thread. cbn [Thread.created_at Thread.messages].
  intros [Hc1 Hm1] [Hc2 Hm2].
  cbn [asdict_thread json_dumps map fst snd Thread.id Thread.name
       Thread.messages Thread.parent_thread_id Thread.created_at].
  remember (datetime_str c1) as d1 eqn:E1.
  remember (datetime_str c2) as d2 eqn:E2.
  intros H. injection H as Hi Hn Hm Hp Hc.
  rewrite E1, E2 in Hc.
  apply pyopt_inj in Hp. apply datetime_str_inj in Hc; [|done..].
  rewrite !map_map in Hm.
  apply (map_eq_inj_Forall _ _ _ _
           (fun x y Hx Hy => json_message_inj x y Hx Hy) Hm1 Hm2) in Hm.
  by subst.
Qed.

(** X23: the exported tree determines the conversation. Two sessions
    with timestamps in the ranges of [datetime] export the same tree
    exactly when they have the same store (ids, order, names, parents,
    creation times and all messages with their attachments) and the same
    current thread; the pending link target and the file list are not part
    of the export. *)
Theorem export_determines_threads (s1 s2 : SessionState) :
  valid_store s1 -> valid_store s2 ->
  json_dumps (export_data s1) = json_dumps (export_data s2)
  <-> threads s1 = threads s2 /\ current_thread s1 = current_thread s2.
Proof.
  intros Hv1 Hv2. split; [|by unfold export_data; intros [-> ->]].
  unfold export_data. cbn [json_dumps map fst snd].
  intros H. injection H as Hth Hcur. split; [|done].
  rewrite !map_map in Hth. cbn [fst snd] in Hth.
  apply (map_eq_inj_Forall _ (fun it => valid_thread it.2)) in Hth; [done| |done..].
  intros [k1 t1] [k2 t2] Ht1 Ht2. cbn [fst snd] in *. intros Heq.
  pose proof (f_equal fst Heq) as Hk. pose proof (f_equal snd Heq) as Ht.
  cbn [fst snd] in Hk, Ht. f_equal; [exact Hk|].
  apply json_thread_inj; [exact Ht1|exact Ht2|exact Ht].
Qed.

(** * Closed examples of the further properties *)

Lemma after_hello_reachable :
  reachable example_decode example_b64encode after_hello.
Proof.
  apply (reachable_run _ _
           (mk_run Home (mk_chat_widgets false None (send_of (lit "Hello")))
                   sample_clocks)
           fresh_session
           (render_chat_interface example_decode example_b64encode
              (mk_chat_widgets false None (send_of (lit "Hello")))
              sample_clocks fresh_session));
    [apply reachable_init|reflexivity].
Qed.

Lemma after_hello_main :
  dict_get (lit "main") (threads after_hello) = Some hello_thread.
Proof. reflexivity. Qed.

Lemma sample_time_valid : valid_datetime sample_time.
Proof. unfold valid_datetime, sample_time; simpl. lia. Qed.

(** X1 on the session after "Hello". *)
Lemma store_keys_distinct_and_match_ids_witness :
  NoDup (dict_keys (threads after_hello))
  /\ Thread.id hello_thread = lit "main".
Proof.
  destruct (store_keys_distinct_and_match_ids example_decode example_b64encode
              after_hello after_hello_reachable) as [Hnd Hids].
  split; [exact Hnd|].
  apply (Hids (lit "main") hello_thread). left. reflexivity.
Defined.

(** X2 on the session after "Hello". *)
Lemma messages_carry_their_thread_id_witness :
  Forall (fun m => Message.thread_id m = lit "main")
         (Thread.messages hello_thread).
Proof.
  apply Forall_forall. intros m Hm.
  apply (messages_carry_their_thread_id example_decode example_b64encode
           after_hello (lit "main") hello_thread m after_hello_reachable
           after_hello_main).
  by apply list_elem_of_In.
Defined.

(** X3 on the session after "Hello". *)
Lemma threads_alternate_user_assistant_witness :
  Nat.even (length (Thread.messages hello_thread)) = true
  /\ forall i m, Thread.messages hello_thread !! i = Some m ->
       Message.role m = (if Nat.even i then lit "user" else lit "assistant").
Proof.
  destruct (threads_alternate_user_assistant example_decode example_b64encode
              after_hello (lit "main") hello_thread after_hello_reachable
              after_hello_main) as [Heven Hroles].
  split; [exact Heven|]. intros i m Hi. exact (proj1 (Hroles i m Hi)).
Defined.

(** X4 on the session after "Hello". *)
Lemma hierarchy_is_flat_witness : root_threads after_hello = threads after_hello.
Proof.
  exact (proj1 (hierarchy_is_flat example_decode example_b64encode after_hello
                  after_hello_reachable)).
Defined.

(** X5: an idle run after "Hello", whose two messages share an id. *)
Lemma run_exceptions_leave_store_untouched_witness :
  main example_decode example_b64encode (mk_run Home idle_chat sample_clocks)
       after_hello
  = Some (Raise (StreamlitDuplicateElementKey (lit "link_msg_1715938200000"))
                after_hello)
  /\ threads after_hello = threads after_hello.
Proof.
  split; [reflexivity|].
  destruct (run_exceptions_leave_store_untouched example_decode
              example_b64encode (mk_run Home idle_chat sample_clocks)
              after_hello after_hello
              (StreamlitDuplicateElementKey (lit "link_msg_1715938200000"))
              after_hello_reachable eq_refl)
    as (_ & Hth & _).
  exact Hth.
Defined.

(** X6: a walk of the tree with depth 1 after "Hello". *)
Lemma script_run_terminates_witness :
  exists o,
    main example_decode example_b64encode
      (mk_run (NestedThreads 1 (Some (lit "main", 0%nat))) idle_chat
              sample_clocks) after_hello = Some o.
Proof.
  destruct (script_run_terminates example_decode example_b64encode
              (NestedThreads 1 (Some (lit "main", 0%nat))) idle_chat
              sample_clocks after_hello after_hello_reachable) as (o & Ho & _).
  - intros fuel p [= <- _]. lia.
  - by exists o.
Defined.

(** X7 on a text of blanks, a tab and a line feed. *)
Lemma send_is_ignored_iff_all_whitespace_witness :
  render_input_area example_decode example_b64encode
    (send_of [32; 9; 10; 160]%N) sample_clocks chatty_session
  = Done chatty_session.
Proof.
  apply (send_is_ignored_iff_all_whitespace example_decode example_b64encode
           (send_of [32; 9; 10; 160]%N) sample_clocks chatty_session
           eq_refl eq_refl eq_refl).
  reflexivity.
Defined.

(** X8: "hi" sent with the readable file. *)
Lemma send_with_file_attaches_it_witness :
  exists s' u a,
    render_input_area example_decode example_b64encode
      (send_with good_text_file (lit "hi")) sample_clocks fresh_session
    = Done s'
    /\ Message.attachments u = [good_file_details]
    /\ uploaded_files s' = [good_file_details]
    /\ Message.content a
       = lit "Thank you for your message: 'hi'" ++ [10; 10]%N
         ++ lit "I also received 1 file(s): notes.txt".
Proof.
  destruct (send_with_file_attaches_it example_decode example_b64encode
              (send_with good_text_file (lit "hi")) sample_clocks fresh_session
              good_text_file good_file_details eq_refl eq_refl eq_refl eq_refl)
    as (s' & u & a & Hrun & _ & Hatt & _ & _ & _ & Hup & Hc).
  exists s', u, a. split; [exact Hrun|]. split; [exact Hatt|].
  split; [exact Hup|]. rewrite Hc. reflexivity.
Defined.

(** X9: "hi" sent with the undecodable file. *)
Lemma send_with_undecodable_file_raises_witness :
  render_input_area example_decode example_b64encode
    (send_with broken_text_file (lit "hi")) sample_clocks chatty_session
  = Raise UnicodeDecodeError chatty_session.
Proof.
  exact (send_with_undecodable_file_raises example_decode example_b64encode
           (send_with broken_text_file (lit "hi")) sample_clocks chatty_session
           broken_text_file eq_refl eq_refl eq_refl eq_refl eq_refl).
Defined.

(** X10: both messages of a send made within one millisecond. *)
Lemma send_message_ids_collide_iff_same_ms_witness :
  exists s' u a,
    render_input_area example_decode example_b64encode
      (send_of (lit "Hello")) sample_clocks fresh_session = Done s'
    /\ messages_of (lit "main") s' = [u; a]
    /\ Message.id u = Message.id a.
Proof.
  destruct (send_message_ids_collide_iff_same_ms example_decode
              example_b64encode (send_of (lit "Hello")) sample_clocks
              fresh_session [] fresh_session eq_refl eq_refl eq_refl)
    as (s' & u & a & Hrun & Hmsgs & Hids).
  exists s', u, a. split; [exact Hrun|]. split; [exact Hmsgs|].
  apply Hids. reflexivity.
Defined.

(** X11: the link button of the message of the sample session. *)
Lemma link_button_sets_pending_target_witness :
  render_chat_interface example_decode example_b64encode
    (mk_chat_widgets false (Some (lit "msg_1715938200000"))
                     (input_area idle_chat))
    sample_clocks (set_link_parent None chatty_session)
  = Done chatty_session.
Proof.
  exact (link_button_sets_pending_target example_decode example_b64encode
           (lit "msg_1715938200000") sample_clocks
           (set_link_parent None chatty_session)
           (Thread.mk (lit "main") (lit "Main Conversation")
              [new_message sample_clock (lit "Hello") (lit "user")
                           (lit "main") [] None]
              None sample_time)
           eq_refl (NoDup_singleton _) (list_elem_of_here _ _)).
Defined.

(** X12: the message of the sample session is linked, then "re" is sent. *)
Lemma link_then_send_sets_parent_witness :
  exists s1 s2 u a,
    render_chat_interface example_decode example_b64encode
      (mk_chat_widgets false (Some (lit "msg_1715938200000"))
                       (input_area idle_chat))
      sample_clocks (set_link_parent None chatty_session) = Done s1
    /\ link_parent s1 = Some (lit "msg_1715938200000")
    /\ render_chat_interface example_decode example_b64encode
         (mk_chat_widgets false None (send_of (lit "re"))) sample_clocks s1
       = Done s2
    /\ length (messages_of (lit "main") s2) = 3%nat
    /\ last (messages_of (lit "main") s2) = Some a
    /\ Message.parent_id u = Some (lit "msg_1715938200000")
    /\ link_parent s2 = None.
Proof.
  destruct (link_then_send_sets_parent example_decode example_b64encode
              (lit "msg_1715938200000") (lit "re") sample_clocks sample_clocks
              (set_link_parent None chatty_session)
              (Thread.mk (lit "main") (lit "Main Conversation")
                 [new_message sample_clock (lit "Hello") (lit "user")
                              (lit "main") [] None]
                 None sample_time)
              eq_refl (NoDup_singleton _) (list_elem_of_here _ _) eq_refl)
    as (s1 & s2 & u & a & Hr1 & Hr2 & Hmsgs & _ & Hp & _ & Hl).
  exists s1, s2, u, a. split; [exact Hr1|].
  split; [by injection Hr1 as <-|].
  split; [exact Hr2|]. cbn [current_thread set_link_parent chatty_session] in Hmsgs.
  rewrite Hmsgs. split; [reflexivity|]. split; [reflexivity|].
  split; [exact Hp|exact Hl].
Defined.

(** X13: "New Thread" pressed in the sample session. *)
Lemma new_thread_button_opens_empty_thread_witness :
  exists s',
    render_chat_interface example_decode example_b64encode
      (mk_chat_widgets true None (send_of [])) sample_clocks chatty_session
    = Done s'
    /\ current_thread s' = lit "thread_1715938200000"
    /\ messages_of (lit "thread_1715938200000") s' = []
    /\ link_parent s' = Some (lit "msg_1715938200000").
Proof.
  destruct (new_thread_button_opens_empty_thread example_decode
              example_b64encode None (send_of []) None [] false false
              sample_clocks chatty_session
              (Thread.mk (lit "main") (lit "Main Conversation")
                 [new_message sample_clock (lit "Hello") (lit "user")
                              (lit "main") [] None]
                 None sample_time)
              eq_refl)
    as (s' & Hrun & _ & Hcur & Hget & Hlink & _).
  exists s'. split; [exact Hrun|]. split; [exact Hcur|].
  split; [|exact Hlink].
  unfold messages_of.
  change (lit "thread_1715938200000")
    with (lit "thread_" ++ str_of_int (time_ms (clk_thread sample_clocks))).
  rewrite Hget. reflexivity.
Defined.

(** X15: "Hello" sent in a fresh session: two messages, one thread. *)
Lemma home_metrics_after_send_witness :
  exists s',
    render_input_area example_decode example_b64encode
      (send_of (lit "Hello")) sample_clocks fresh_session = Done s'
    /\ render_home_tab s' = (2, 1)%nat.
Proof.
  exact (home_metrics_after_send example_decode example_b64encode
           (send_of (lit "Hello")) sample_clocks fresh_session [] fresh_session
           (Thread.mk (lit "main") (lit "Main Conversation") [] None sample_time)
           eq_refl eq_refl eq_refl eq_refl).
Defined.

(** X16: the session after "Hello", cleared. *)
Lemma home_metrics_after_clear_witness :
  exists s',
    render_input_area example_decode example_b64encode clear_press
      sample_clocks after_hello = Done s'
    /\ render_home_tab s' = (0, 1)%nat.
Proof.
  destruct (home_metrics_after_clear example_decode example_b64encode
              clear_press sample_clocks after_hello hello_thread
              eq_refl eq_refl eq_refl after_hello_main)
    as (s' & Hrun & Hhome & _).
  exists s'. split; [exact Hrun|exact Hhome].
Defined.

(** X17: the tree button of ["main"] after "Hello". *)
Lemma tree_button_switches_thread_witness :
  main example_decode example_b64encode
    (mk_run (NestedThreads 3 (Some (lit "main", 0%nat))) idle_chat sample_clocks)
    after_hello
  = Some (Done after_hello).
Proof.
  exact (tree_button_switches_thread example_decode example_b64encode 2
           (lit "main") idle_chat sample_clocks after_hello
           after_hello_reachable eq_refl).
Defined.

(** X24: the conversations button of ["main"] after "Hello". *)
Lemma conversation_button_switches_to_stored_thread_witness :
  main example_decode example_b64encode
    (mk_run (Conversations (Some (lit "main"))) idle_chat sample_clocks)
    after_hello
  = Some (Done after_hello).
Proof.
  exact (conversation_button_switches_to_stored_thread example_decode
           example_b64encode (lit "main") idle_chat sample_clocks after_hello
           eq_refl).
Defined.


(** X18: the only listed file is removed. *)
Lemma remove_file_keeps_messages_witness :
  exists s',
    main example_decode example_b64encode
      (mk_run (Files (Some 0%nat)) idle_chat sample_clocks) session_with_file
    = Some (Done s')
    /\ uploaded_files s' = []
    /\ threads s' = threads session_with_file.
Proof.
  destruct (remove_file_keeps_messages example_decode example_b64encode 0
              idle_chat sample_clocks session_with_file)
    as (s' & Hrun & Hlen & _ & _ & Hth & _).
  - simpl. lia.
  - exists s'. split; [exact Hrun|]. split; [|exact Hth].
    destruct (uploaded_files s'); [reflexivity|]. simpl in Hlen. lia.
Defined.

(** X20: the preview of the readable text file is its content. *)
Lemma preview_of_processed_file_witness :
  (display_file_preview good_file_details).2 = Code [104; 105]%N
  /\ startswith (uf_type good_text_file) (lit "text/") = true.
Proof.
  split; [reflexivity|].
  exact (proj1 (preview_of_processed_file example_decode example_b64encode
                  good_text_file good_file_details eq_refl)).
Defined.

(** X23: a fresh session and the one that lists a file export alike. *)
Lemma export_determines_threads_witness :
  json_dumps (export_data fresh_session)
  = json_dumps (export_data session_with_file).
Proof.
  assert (valid_store fresh_session) as Hv.
  { constructor; [|constructor].
    split; [apply sample_time_valid|constructor]. }
  apply (export_determines_threads fresh_session session_with_file Hv Hv).
  split; reflexivity.
Defined.
